(** * Invisible Lines: the analytical pipeline of the health dashboard

    A shallow embedding of the data pipeline of the dashboard:
    - [data/data-loader.ts] (the TypeScript part of src/setup-backend.sh):
      [parseCSV], the identifier formatting of [fetchAndProcessData], the
      orchestrator [processData] and its [aggregateByField];
    - [lib/data-processing.ts] (src/unnamed/part_000): [processData],
      [aggregateByField], [getRegionFromState], [performPCA],
      [standardizeData], [simplePCA], [performClustering],
      [kMeansClustering], [euclideanDistance];
    - the correlation matrix (src/components/data-uploader.tsx):
      [calculateCorrelation] and [calculateCorrelationMatrix].

    Conventions of the embedding.
    - A value is [undefined], [null], a number or a string: what the cells
      of a CSV file and the rows handed to the pipeline hold.
    - A JavaScript number is an exact rational, or [NaN].  Rounding,
      overflow and the infinities of IEEE doubles have no counterpart: the
      literal [Infinity] is not read by the parsers, and a quotient by zero
      (which the code guards against everywhere) is [NaN].
    - Where the code takes square roots the same numbers are read as reals.
    - An object is an association list in property-creation order; the
      prototype chain is not modelled, so property names are assumed not to
      collide with members of [Object.prototype].
    - Strings are sequences of 8-bit characters.
    - [Math.random()] reads the next element of a stream of rationals; the
      position in the stream is threaded through the code that draws.
    - The orchestrator takes the two functions it imports from
      lib/data-processing.ts as parameters, so that what it does when one
      of them throws can be stated; [DataLoader.run] links it with the
      functions of this repository. *)

From Stdlib Require Import List String Ascii Bool Arith ZArith QArith Qround.
From Stdlib Require Import DecimalString Permutation Lia Lqa.
From Stdlib Require Import Reals Qreals Lra.
Import ListNotations.

Local Open Scope string_scope.
Local Open Scope list_scope.

(** ** Numbers *)

Inductive num (A : Type) : Type :=
| NaN
| Fin (a : A).
Arguments NaN {A}.
Arguments Fin {A} a.

Definition isNaN_num {A} (n : num A) : bool :=
  match n with NaN => true | Fin _ => false end.

Definition num_map {A B} (f : A -> B) (n : num A) : num B :=
  match n with NaN => NaN | Fin a => Fin (f a) end.

(** Rational arithmetic, kept in lowest terms. *)
Module QNum.

Definition zero : num Q := Fin 0%Q.

Definition ofNat (n : nat) : num Q := Fin (inject_Z (Z.of_nat n)).

Definition add (a b : num Q) : num Q :=
  match a, b with
  | Fin x, Fin y => Fin (Qred (x + y))
  | _, _ => NaN
  end.

Definition div (a b : num Q) : num Q :=
  match a, b with
  | Fin x, Fin y => if Qeq_bool y 0 then NaN else Fin (Qred (x / y))
  | _, _ => NaN
  end.

Definition leb (a b : num Q) : bool :=
  match a, b with
  | Fin x, Fin y => Qle_bool x y
  | _, _ => false
  end.

Definition isZero (a : num Q) : bool :=
  match a with
  | Fin x => Qeq_bool x 0
  | NaN => false
  end.

End QNum.

(** ** Strings and the two number parsers *)

Module Str.

Definition isDigit (c : ascii) : bool :=
  (48 <=? nat_of_ascii c)%nat && (nat_of_ascii c <=? 57)%nat.

Definition digitVal (c : ascii) : Z := (Z.of_nat (nat_of_ascii c) - 48)%Z.

(** White space and line terminators in the 8-bit range. *)
Definition isWhiteSpace (c : ascii) : bool :=
  let n := nat_of_ascii c in
  ((9 <=? n)%nat && (n <=? 13)%nat) || (n =? 32)%nat.

Fixpoint dropWhile {A} (p : A -> bool) (l : list A) : list A :=
  match l with
  | [] => []
  | x :: l' => if p x then dropWhile p l' else l
  end.

Definition trimStart (cs : list ascii) : list ascii := dropWhile isWhiteSpace cs.
Definition trimEnd (cs : list ascii) : list ascii := rev (dropWhile isWhiteSpace (rev cs)).
Definition trimChars (cs : list ascii) : list ascii := trimEnd (trimStart cs).

(** [String.prototype.trim] *)
Definition trim (s : string) : string :=
  string_of_list_ascii (trimChars (list_ascii_of_string s)).

(** [String.prototype.split] with a one-character separator: the empty
    string splits into one empty piece. *)
Fixpoint splitChars (sep : ascii) (cur : list ascii) (cs : list ascii) : list string :=
  match cs with
  | [] => [string_of_list_ascii (rev cur)]
  | c :: cs' =>
      if Ascii.eqb c sep
      then string_of_list_ascii (rev cur) :: splitChars sep [] cs'
      else splitChars sep (c :: cur) cs'
  end.

Definition split (sep : ascii) (s : string) : list string :=
  splitChars sep [] (list_ascii_of_string s).

(** [String.prototype.padStart(n, "0")] *)
Definition padStart0 (n : nat) (s : string) : string :=
  string_of_list_ascii (repeat "0"%char (n - String.length s)) ++ s.

(** [String.prototype.substring(0, n)] *)
Definition prefixOf (n : nat) (s : string) : string := String.substring 0 n s.

Fixpoint spanDigits (cs : list ascii) : list ascii * list ascii :=
  match cs with
  | c :: cs' =>
      if isDigit c
      then let (ds, rest) := spanDigits cs' in (c :: ds, rest)
      else ([], cs)
  | [] => ([], [])
  end.

Definition digitsToZ (ds : list ascii) : Z :=
  fold_left (fun acc c => (acc * 10 + digitVal c)%Z) ds 0%Z.

Definition isExpChar (c : ascii) : bool :=
  Ascii.eqb c "e"%char || Ascii.eqb c "E"%char.

(** ExponentPart: read only when it is complete (a letter e, an optional
    sign and at least one digit); otherwise nothing is consumed. *)
Definition scanExponent (cs : list ascii) : Z * list ascii :=
  match cs with
  | c :: cs1 =>
      if isExpChar c then
        let '(neg, cs2) :=
          match cs1 with
          | s :: t =>
              if Ascii.eqb s "-"%char then (true, t)
              else if Ascii.eqb s "+"%char then (false, t)
              else (false, cs1)
          | [] => (false, cs1)
          end in
        match spanDigits cs2 with
        | ([], _) => (0%Z, cs)
        | (ds, rest) => ((if neg then - digitsToZ ds else digitsToZ ds)%Z, rest)
        end
      else (0%Z, cs)
  | [] => (0%Z, cs)
  end.

(** The longest prefix that is a StrUnsignedDecimalLiteral
    ([digits], [digits.], [digits.digits], [.digits], each with an optional
    exponent), with its value and the unread rest. *)
Definition scanUnsignedDecimal (cs : list ascii) : option (Q * list ascii) :=
  let (ip, r1) := spanDigits cs in
  let '(fp, r2, ok) :=
    match r1 with
    | c :: t =>
        if Ascii.eqb c "."%char then
          let (fd, r) := spanDigits t in
          match ip, fd with
          | [], [] => ([], r1, false)
          | _, _ => (fd, r, true)
          end
        else ([], r1, negb (Nat.eqb (List.length ip) 0))
    | [] => ([], r1, negb (Nat.eqb (List.length ip) 0))
    end in
  if ok then
    let (e, r3) := scanExponent r2 in
    Some ((inject_Z (digitsToZ (ip ++ fp)) * (10 # 1) ^ (e - Z.of_nat (List.length fp)))%Q, r3)
  else None.

Definition scanDecimal (cs : list ascii) : option (Q * list ascii) :=
  match cs with
  | c :: t =>
      if Ascii.eqb c "-"%char then
        match scanUnsignedDecimal t with
        | Some (q, r) => Some ((- q)%Q, r)
        | None => None
        end
      else if Ascii.eqb c "+"%char then scanUnsignedDecimal t
      else scanUnsignedDecimal cs
  | [] => None
  end.

(** [Number.parseFloat] on a string: leading white space is skipped and
    the longest decimal prefix is read; what follows it is ignored. *)
Definition parseFloat (s : string) : num Q :=
  match scanDecimal (trimStart (list_ascii_of_string s)) with
  | Some (q, _) => Fin (Qred q)
  | None => NaN
  end.

(** Digits of the literals [0x..], [0o..] and [0b..]. *)
Definition radixDigit (c : ascii) : option Z :=
  let n := nat_of_ascii c in
  if isDigit c then Some (digitVal c)
  else if ((97 <=? n) && (n <=? 102))%nat then Some (Z.of_nat n - 87)%Z
  else if ((65 <=? n) && (n <=? 70))%nat then Some (Z.of_nat n - 55)%Z
  else None.

Fixpoint radixValue (b : Z) (acc : Z) (cs : list ascii) : option Z :=
  match cs with
  | [] => Some acc
  | c :: cs' =>
      match radixDigit c with
      | Some d => if (d <? b)%Z then radixValue b (acc * b + d)%Z cs' else None
      | None => None
      end
  end.

Definition radixOf (c : ascii) : option Z :=
  if Ascii.eqb c "x"%char || Ascii.eqb c "X"%char then Some 16%Z
  else if Ascii.eqb c "o"%char || Ascii.eqb c "O"%char then Some 8%Z
  else if Ascii.eqb c "b"%char || Ascii.eqb c "B"%char then Some 2%Z
  else None.

Definition scanRadix (cs : list ascii) : option (num Q) :=
  match cs with
  | z :: c :: ds =>
      if Ascii.eqb z "0"%char then
        match radixOf c with
        | Some b =>
            match ds with
            | [] => Some NaN
            | _ => match radixValue b 0%Z ds with
                   | Some v => Some (Fin (inject_Z v))
                   | None => Some NaN
                   end
            end
        | None => None
        end
      else None
  | _ => None
  end.

(** StringToNumber, the conversion behind [Number(s)] and [isNaN(s)]:
    the whole trimmed string has to be one numeric literal, and the empty
    string is 0. *)
Definition toNumber (s : string) : num Q :=
  match trimChars (list_ascii_of_string s) with
  | [] => Fin 0%Q
  | cs =>
      match scanRadix cs with
      | Some n => n
      | None =>
          match scanDecimal cs with
          | Some (q, []) => Fin (Qred q)
          | _ => NaN
          end
      end
  end.

(** Digits of a proper fraction [r / d], while they last. *)
Fixpoint fracDigits (fuel : nat) (r d : Z) : list ascii :=
  match fuel with
  | O => []
  | S fuel' =>
      if (r =? 0)%Z then []
      else ascii_of_nat (48 + Z.to_nat (r * 10 / d)) :: fracDigits fuel' (r * 10 mod d)%Z d
  end.

(** Number::toString for the numbers of the model: integers in plain
    digits, other values as a decimal expansion (exact when it terminates
    within 20 digits). *)
Definition ofNumber (n : num Q) : string :=
  match n with
  | NaN => "NaN"
  | Fin q =>
      let q' := Qred q in
      let a := Z.abs (Qnum q') in
      let d := Zpos (Qden q') in
      let sign := if (Qnum q' <? 0)%Z then "-" else "" in
      let ip := NilZero.string_of_int (Z.to_int (a / d)) in
      match fracDigits 20 (a mod d) d with
      | [] => sign ++ ip
      | fd => sign ++ ip ++ "." ++ string_of_list_ascii fd
      end
  end.

End Str.

(** ** Values and objects *)

Inductive value : Type :=
| VUndefined
| VNull
| VNumber (n : num Q)
| VString (s : string).

(** An object with string keys, in property-creation order. *)
Definition dict (A : Type) : Type := list (string * A).
Definition obj : Type := dict value.

Module JS.

(** ToBoolean *)
Definition truthy (v : value) : bool :=
  match v with
  | VUndefined | VNull => false
  | VNumber n => negb (isNaN_num n) && negb (QNum.isZero n)
  | VString s => negb (s =? "")
  end.

(** [a && b] and [a || b] return one of their operands. *)
Definition and_ (a b : value) : value := if truthy a then b else a.
Definition or_ (a b : value) : value := if truthy a then a else b.

(** ToNumber, behind [Number(v)], [isNaN(v)] and the arithmetic operators *)
Definition toNumber (v : value) : num Q :=
  match v with
  | VUndefined => NaN
  | VNull => Fin 0%Q
  | VNumber n => n
  | VString s => Str.toNumber s
  end.

(** ToString, behind [String(v)], property keys and string concatenation *)
Definition toString (v : value) : string :=
  match v with
  | VUndefined => "undefined"
  | VNull => "null"
  | VNumber n => Str.ofNumber n
  | VString s => s
  end.

(** The global [isNaN] *)
Definition isNaN (v : value) : bool := isNaN_num (toNumber v).

(** [Number.parseFloat(v)]: the argument is converted to a string and
    parsed; for a number that gives the number back. *)
Definition parseFloat (v : value) : num Q :=
  match v with
  | VString s => Str.parseFloat s
  | VNumber n => n
  | VUndefined | VNull => NaN
  end.

Definition isUndefined (v : value) : bool :=
  match v with VUndefined => true | _ => false end.

Definition isNull (v : value) : bool :=
  match v with VNull => true | _ => false end.

(** [v === s] for a string literal [s] *)
Definition isString (v : value) (s : string) : bool :=
  match v with VString t => t =? s | _ => false end.

Definition typeofNumber (v : value) : bool :=
  match v with VNumber _ => true | _ => false end.

Definition typeofString (v : value) : bool :=
  match v with VString _ => true | _ => false end.

(** [a + b]: concatenation as soon as one operand is a string *)
Definition add (a b : value) : value :=
  match a, b with
  | VString _, _ | _, VString _ => VString (toString a ++ toString b)
  | _, _ => VNumber (QNum.add (toNumber a) (toNumber b))
  end.

(** [a / b] *)
Definition div (a b : value) : num Q := QNum.div (toNumber a) (toNumber b).

(** [a <= b] when at least one operand is not a string *)
Definition le (a b : value) : bool := QNum.leb (toNumber a) (toNumber b).

Fixpoint lookup {A} (k : string) (o : dict A) : option A :=
  match o with
  | [] => None
  | (k', v) :: o' => if k' =? k then Some v else lookup k o'
  end.

(** [o[k]] *)
Definition get (o : obj) (k : string) : value :=
  match lookup k o with
  | Some v => v
  | None => VUndefined
  end.

(** [o[k] = v]: an existing property keeps its place, a new one goes last. *)
Fixpoint set {A} (o : dict A) (k : string) (v : A) : dict A :=
  match o with
  | [] => [(k, v)]
  | (k', v') :: o' => if k' =? k then (k, v) :: o' else (k', v') :: set o' k v
  end.

(** An array index: a canonical decimal numeral below 2^32 - 1. *)
Definition arrayIndex (k : string) : option Z :=
  let cs := list_ascii_of_string k in
  match cs with
  | [] => None
  | c :: rest =>
      if forallb Str.isDigit cs && (negb (Ascii.eqb c "0"%char) || (List.length rest =? 0)%nat)
      then let v := Str.digitsToZ cs in
           if (v <? 4294967295)%Z then Some v else None
      else None
  end.

Fixpoint insertIndexed {A} (i : Z) (e : string * A) (l : list (Z * (string * A)))
  : list (Z * (string * A)) :=
  match l with
  | [] => [(i, e)]
  | (j, f) :: l' => if (i <? j)%Z then (i, e) :: l else (j, f) :: insertIndexed i e l'
  end.

Definition indexedEntries {A} (o : dict A) : list (Z * (string * A)) :=
  fold_left (fun acc e =>
               match arrayIndex (fst e) with
               | Some i => insertIndexed i e acc
               | None => acc
               end) o [].

Definition namedEntries {A} (o : dict A) : dict A :=
  filter (fun e => match arrayIndex (fst e) with Some _ => false | None => true end) o.

(** [Object.entries(o)]: array indices in ascending order, then the other
    keys in creation order. *)
Definition entries {A} (o : dict A) : dict A :=
  map snd (indexedEntries o) ++ namedEntries o.

(** [Object.keys(o)] *)
Definition keys {A} (o : dict A) : list string := map fst (entries o).

(** [{ ...o }]: the copy has the properties of [o] and enumerates them in
    the same order; objects being values here, it is [o] itself. *)
Definition spread (o : obj) : obj := o.

(** [l.find(p)?.[k]] *)
Definition findGet (p : obj -> bool) (l : list obj) (k : string) : value :=
  match find p l with
  | Some r => get r k
  | None => VUndefined
  end.

End JS.

(** ** Effects: the random stream and exceptions *)

Inductive exn : Type :=
| Error (message : string)
| TypeError.

(** The result of running code that may draw random numbers, throw, or
    loop: [c] is the position reached in the random stream. *)
Inductive outcome (A : Type) : Type :=
| Returned (a : A) (c : nat)
| Threw (e : exn) (c : nat)
| Diverged.
Arguments Returned {A} a c.
Arguments Threw {A} e c.
Arguments Diverged {A}.

Definition bind {A B} (m : outcome A) (f : A -> nat -> outcome B) : outcome B :=
  match m with
  | Returned a c => f a c
  | Threw e c => Threw e c
  | Diverged => Diverged
  end.

(** A projected point [{ pc1, pc2, index }] *)
Record pcaPoint : Type := mkPoint { pc1 : num R; pc2 : num R; index : nat }.

Inductive level : Type := County | State | Region.

Definition levelName (l : level) : string :=
  match l with County => "county" | State => "state" | Region => "region" end.

(** ** Real arithmetic, for the code that takes square roots *)

Module RNum.

Definition ofQ (n : num Q) : num R := num_map Q2R n.

Definition ofNat (n : nat) : num R := Fin (INR n).

Definition add (a b : num R) : num R :=
  match a, b with
  | Fin x, Fin y => Fin (x + y)%R
  | _, _ => NaN
  end.

Definition sub (a b : num R) : num R :=
  match a, b with
  | Fin x, Fin y => Fin (x - y)%R
  | _, _ => NaN
  end.

Definition mul (a b : num R) : num R :=
  match a, b with
  | Fin x, Fin y => Fin (x * y)%R
  | _, _ => NaN
  end.

Definition div (a b : num R) : num R :=
  match a, b with
  | Fin x, Fin y => if Req_dec_T y 0 then NaN else Fin (x / y)%R
  | _, _ => NaN
  end.

(** [Math.pow(a, 2)] *)
Definition square (a : num R) : num R := mul a a.

(** [Math.sqrt]: not a number below zero *)
Definition sqrt (a : num R) : num R :=
  match a with
  | Fin x => if Rlt_dec x 0 then NaN else Fin (R_sqrt.sqrt x)
  | NaN => NaN
  end.

(** [a === 0] *)
Definition isZero (a : num R) : bool :=
  match a with
  | Fin x => if Req_dec_T x 0 then true else false
  | NaN => false
  end.

(** A running minimum that starts at [Number.POSITIVE_INFINITY]. *)
Inductive bound : Type :=
| PosInf
| Bd (r : R).

(** [a < b] against such a minimum *)
Definition ltBound (a : num R) (b : bound) : bool :=
  match a, b with
  | Fin _, PosInf => true
  | Fin x, Bd y => if Rlt_dec x y then true else false
  | NaN, _ => false
  end.

Definition toBound (a : num R) : bound :=
  match a with
  | Fin x => Bd x
  | NaN => PosInf
  end.

End RNum.

(** ** lib/data-processing.ts *)

Module DataProcessing.

(** The table of [getRegionFromState] *)
Definition regions : dict string :=
  [ ("CT", "Northeast"); ("ME", "Northeast"); ("MA", "Northeast"); ("NH", "Northeast");
    ("RI", "Northeast"); ("VT", "Northeast"); ("NJ", "Northeast"); ("NY", "Northeast");
    ("PA", "Northeast");
    ("IL", "Midwest"); ("IN", "Midwest"); ("MI", "Midwest"); ("OH", "Midwest");
    ("WI", "Midwest"); ("IA", "Midwest"); ("KS", "Midwest"); ("MN", "Midwest");
    ("MO", "Midwest"); ("NE", "Midwest"); ("ND", "Midwest"); ("SD", "Midwest");
    ("DE", "South"); ("FL", "South"); ("GA", "South"); ("MD", "South"); ("NC", "South");
    ("SC", "South"); ("VA", "South"); ("WV", "South"); ("AL", "South"); ("KY", "South");
    ("MS", "South"); ("TN", "South"); ("AR", "South"); ("LA", "South"); ("OK", "South");
    ("TX", "South"); ("DC", "South");
    ("AZ", "West"); ("CO", "West"); ("ID", "West"); ("MT", "West"); ("NV", "West");
    ("NM", "West"); ("UT", "West"); ("WY", "West"); ("AK", "West"); ("CA", "West");
    ("HI", "West"); ("OR", "West"); ("WA", "West") ].

(** [regions[stateAbbr] || "Unknown"] *)
Definition getRegionFromState (stateAbbr : value) : string :=
  match JS.lookup (JS.toString stateAbbr) regions with
  | Some r => r
  | None => "Unknown"
  end.

(** The rows of each group, keyed by [row[field]]; rows whose key is falsy
    are skipped. *)
Definition groupRows (data : list obj) (field : string) : dict (list obj) :=
  fold_left
    (fun groups row =>
       let key := JS.get row field in
       if negb (JS.truthy key) then groups
       else
         let k := JS.toString key in
         match JS.lookup k groups with
         | Some rows => JS.set groups k (rows ++ [row])
         | None => JS.set groups k [row]
         end)
    data [].

(** The values of one column that go into the mean:
    [rows.map(r => r[col]).filter(v => v !== undefined && v !== null &&
    !isNaN(Number(v))).map(v => Number(v))] *)
Definition numericValues (rows : list obj) (col : string) : list (num Q) :=
  map JS.toNumber
    (filter (fun v => negb (JS.isUndefined v) && negb (JS.isNull v) && negb (JS.isNaN v))
       (map (fun r => JS.get r col) rows)).

(** [values.reduce((sum, val) => sum + val, 0) / values.length] *)
Definition meanOf (values : list (num Q)) : num Q :=
  QNum.div (fold_left QNum.add values QNum.zero) (QNum.ofNat (List.length values)).

Definition aggregateGroup (field : string) (columns : list string)
  (entry : string * list obj) : obj :=
  let (key, rows) := entry in
  let result : obj := [(field, VString key)] in
  let result :=
    fold_left
      (fun result col =>
         if col =? field then result
         else
           let values := numericValues rows col in
           if (0 <? List.length values)%nat
           then JS.set result col (VNumber (meanOf values))
           else result)
      columns result in
  JS.set result (field ++ "Count") (VNumber (QNum.ofNat (List.length rows))).

Definition aggregateByField (data : list obj) (field : string) (columns : list string)
  : list obj :=
  map (aggregateGroup field columns) (JS.entries (groupRows data field)).

Definition keepRow (aggregationLevel : level) (d : obj) : value :=
  match aggregationLevel with
  | County => JS.and_ (JS.and_ (JS.get d "FIPS") (JS.get d "Name")) (JS.get d "State Abbreviation")
  | State => JS.get d "State Abbreviation"
  | Region => JS.get d "State Abbreviation"
  end.

Definition firstKeys (l : list obj) : list string :=
  match l with
  | [] => []
  | o :: _ => JS.keys o
  end.

(** [processData] of this file: it throws when no row passes the filter. *)
Definition processData (data : list obj) (aggregationLevel : level)
  : exn + (list obj * list string) :=
  let filtered := filter (fun d => JS.truthy (keepRow aggregationLevel d)) data in
  if (List.length filtered =? 0)%nat then
    inl (Error ("No valid data rows found for " ++ levelName aggregationLevel
                ++ " level aggregation"))
  else
    let allColumns := firstKeys filtered in
    let processed :=
      match aggregationLevel with
      | County => filtered
      | State => aggregateByField filtered "State Abbreviation" allColumns
      | Region =>
          let withRegions :=
            map (fun d => JS.set (JS.spread d) "Region"
                            (VString (getRegionFromState (JS.get d "State Abbreviation"))))
              filtered in
          aggregateByField withRegions "Region" (allColumns ++ ["Region"])
      end in
    inr (processed, firstKeys processed).

(** *** Standardisation, projection, clustering *)

Definition matrix : Type := list (list (num R)).

(** [row[j]]; a missing entry reads as [undefined], which is not a number
    in arithmetic. *)
Definition item (row : list (num R)) (j : nat) : num R :=
  match nth_error row j with
  | Some v => v
  | None => NaN
  end.

(** [data[i][j]], for [i] below [data.length] *)
Definition cell (data : matrix) (i j : nat) : num R := item (nth i data []) j.

(** The sum of column [j], accumulated over the samples in order. *)
Definition columnSum (data : matrix) (numSamples j : nat) : num R :=
  fold_left (fun acc i => RNum.add acc (cell data i j)) (seq 0 numSamples) (Fin 0%R).

Definition columnMean (data : matrix) (numSamples j : nat) : num R :=
  RNum.div (columnSum data numSamples j) (RNum.ofNat numSamples).

(** [stds[j]]: the square root of the mean squared deviation, replaced by
    1 when it is 0. *)
Definition columnStd (data : matrix) (numSamples j : nat) : num R :=
  let mean := columnMean data numSamples j in
  let s :=
    RNum.sqrt
      (RNum.div
         (fold_left (fun acc i => RNum.add acc (RNum.square (RNum.sub (cell data i j) mean)))
            (seq 0 numSamples) (Fin 0%R))
         (RNum.ofNat numSamples)) in
  if RNum.isZero s then Fin 1%R else s.

(** [standardizeData]: reading [data[0].length] of an empty array throws.
    The accumulating loops over samples are written column by column. *)
Definition standardizeData (data : matrix) : exn + matrix :=
  match data with
  | [] => inl TypeError
  | row0 :: _ =>
      let numFeatures := List.length row0 in
      let numSamples := List.length data in
      inr (map (fun i =>
                  map (fun j =>
                         RNum.div (RNum.sub (cell data i j) (columnMean data numSamples j))
                           (columnStd data numSamples j))
                    (seq 0 numFeatures))
             (seq 0 numSamples))
  end.

Section Random.

Variable rand : nat -> Q.

(** [(Math.random() - 0.5) * 0.5] *)
Definition jitter (c : nat) : num R :=
  Fin ((Q2R (rand c) - 5 / 10) * (5 / 10))%R.

Definition project (w0 w1 : R) (row : list (num R)) (c : nat) : num R :=
  RNum.add
    (RNum.add (RNum.mul (item row 0) (Fin w0)) (RNum.mul (item row 1) (Fin w1)))
    (jitter c).

(** [simplePCA]: two draws per row, first for [pc1]. *)
Fixpoint simplePCA (data : matrix) (indices : list nat) (i c : nat) : list pcaPoint * nat :=
  match data with
  | [] => ([], c)
  | row :: data' =>
      let p := {| pc1 := project (8 / 10) (2 / 10) row c;
                  pc2 := project (3 / 10) (7 / 10) row (S c);
                  index := nth i indices 0%nat |} in
      let (ps, c') := simplePCA data' indices (S i) (S (S c)) in
      (p :: ps, c')
  end.

(** [typeof val === "number" ? val : 0] *)
Definition featureValue (d : obj) (f : string) : num R :=
  let val := JS.get d f in
  if JS.typeofNumber val then RNum.ofQ (JS.toNumber val) else Fin 0%R.

Definition performPCA (data : list obj) (features : list string) (c : nat)
  : outcome (list pcaPoint) :=
  let numericData := map (fun d => map (featureValue d) features) data in
  match standardizeData numericData with
  | inl e => Threw e c
  | inr standardized =>
      let (pcaResult, c') := simplePCA standardized (seq 0 (List.length data)) 0 c in
      Returned pcaResult c'
  end.

Definition euclideanDistance (a b : list (num R)) : num R :=
  RNum.sqrt
    (fold_left (fun sum i => RNum.add sum (RNum.square (RNum.sub (item a i) (item b i))))
       (seq 0 (List.length a)) (Fin 0%R)).

(** [points[idx]] for the integer [idx] *)
Definition pointAt (points : matrix) (idx : Z) : option (list (num R)) :=
  if (idx <? 0)%Z then None else nth_error points (Z.to_nat idx).

(** The initialisation loop [while (centroids.length < k)], which draws an
    index until [k] different ones are found; [fuel] bounds the number of
    draws, and copying a point that does not exist throws. *)
Fixpoint initCentroids (fuel : nat) (points : matrix) (k : nat)
  (centroids : matrix) (usedIndices : list Z) (c : nat) : outcome matrix :=
  if (k <=? List.length centroids)%nat then Returned centroids c
  else
    match fuel with
    | O => Diverged
    | S fuel' =>
        let idx := Qfloor (rand c * inject_Z (Z.of_nat (List.length points))) in
        if negb (existsb (Z.eqb idx) usedIndices) then
          match pointAt points idx with
          | Some p => initCentroids fuel' points k (centroids ++ [p]) (usedIndices ++ [idx]) (S c)
          | None => Threw TypeError (S c)
          end
        else initCentroids fuel' points k centroids usedIndices (S c)
    end.

End Random.

(** The inner scan: the first centroid at the least distance. *)
Definition nearest (centroids : matrix) (k : nat) (p : list (num R)) : nat :=
  snd (fold_left
         (fun (st : RNum.bound * nat) j =>
            let dist := euclideanDistance p (nth j centroids []) in
            if RNum.ltBound dist (fst st) then (RNum.toBound dist, j) else st)
         (seq 0 k) (RNum.PosInf, 0%nat)).

(** [acc[j] += p[j]] for every [j] below [p.length]; an entry of [acc]
    that does not exist yet becomes not a number. *)
Fixpoint accumulate (acc p : list (num R)) : list (num R) :=
  match p, acc with
  | [], _ => acc
  | x :: p', a :: acc' => RNum.add a x :: accumulate acc' p'
  | x :: p', [] => NaN :: accumulate [] p'
  end.

(** The points assigned to [cluster], in order. *)
Definition members (points : matrix) (assignments : list nat) (cluster : nat) : matrix :=
  map fst (filter (fun pa => (snd pa =? cluster)%nat) (combine points assignments)).

(** The centroid update, written cluster by cluster: a cluster without
    points keeps its centroid. *)
Definition updateCentroids (points : matrix) (assignments : list nat) (k : nat)
  (centroids : matrix) : matrix :=
  let dim := List.length (nth 0 points []) in
  let updated :=
    map (fun i =>
           let ms := members points assignments i in
           if (0 <? List.length ms)%nat
           then map (fun s => RNum.div s (RNum.ofNat (List.length ms)))
                  (fold_left accumulate ms (repeat (Fin 0%R) dim))
           else nth i centroids [])
      (seq 0 k) in
  updated ++ skipn k centroids.

(** The main loop; [iterations] counts down from [MAX_ITERATIONS]. *)
Fixpoint iterate (iterations : nat) (points : matrix) (k : nat)
  (assignments : list nat) (centroids : matrix) : list nat * matrix :=
  match iterations with
  | O => (assignments, centroids)
  | S iterations' =>
      let assignments' := map (nearest centroids k) points in
      let changed :=
        existsb (fun am => negb (fst am =? snd am)%nat) (combine assignments assignments') in
      let centroids' := updateCentroids points assignments' k centroids in
      if changed then iterate iterations' points k assignments' centroids'
      else (assignments', centroids')
  end.

Definition MAX_ITERATIONS : nat := 100.

Definition kMeansClustering (rand : nat -> Q) (fuel : nat) (points : matrix) (k : nat) (c : nat)
  : outcome (list nat * matrix) :=
  let n := List.length points in
  if (n =? 0)%nat then Returned ([], []) c
  else
    bind (initCentroids rand fuel points k [] [] c)
      (fun centroids c' =>
         Returned (iterate MAX_ITERATIONS points k (repeat 0%nat n) centroids) c').

Definition performClustering (rand : nat -> Q) (fuel : nat) (pcaData : list pcaPoint) (k : nat)
  (c : nat) : outcome (list Z) :=
  let points := map (fun d => [pc1 d; pc2 d]) pcaData in
  bind (kMeansClustering rand fuel points k c)
    (fun r c' => Returned (map Z.of_nat (fst r)) c').

End DataProcessing.

(** ** data/data-loader.ts *)

Module DataLoader.

Definition LF : ascii := ascii_of_nat 10.

(** A cell of [parseCSV]: a number when the whole trimmed text is a
    numeric literal and not empty, the text itself otherwise. *)
Definition cellValue (text : string) : value :=
  if negb (isNaN_num (Str.toNumber text)) && negb (text =? "")
  then VNumber (Str.toNumber text)
  else VString text.

(** [values[index]?.trim() || ""] *)
Definition cellText (values : list string) (index : nat) : string :=
  match nth_error values index with
  | Some v => Str.trim v
  | None => ""
  end.

Definition parseRow (headers : list string) (row : string) : option obj :=
  if Str.trim row =? "" then None
  else
    let values := Str.split ","%char row in
    Some (fold_left
            (fun rowData (ih : nat * string) =>
               JS.set rowData (snd ih) (cellValue (cellText values (fst ih))))
            (combine (seq 0 (List.length headers)) headers) []).

Fixpoint filterSome {A} (l : list (option A)) : list A :=
  match l with
  | [] => []
  | Some a :: l' => a :: filterSome l'
  | None :: l' => filterSome l'
  end.

Definition parseCSV (csvText : string) : list obj :=
  let rows := Str.split LF csvText in
  let headers := map Str.trim (Str.split ","%char (hd "" rows)) in
  filterSome (map (parseRow headers) (tl rows)).

(** The step of [fetchAndProcessData] that formats the identifier: a
    [FIPS] that is not [undefined] becomes a string of at least 5
    characters. *)
Definition padFIPS (row : obj) : obj :=
  if negb (JS.isUndefined (JS.get row "FIPS"))
  then JS.set row "FIPS" (VString (Str.padStart0 5 (JS.toString (JS.get row "FIPS"))))
  else row.

(** First step of [processData]: every column but the three identifying
    ones whose value is neither [undefined], [null] nor the empty string is
    replaced by [Number.parseFloat] of it, unless that is not a number. *)
Definition coerceRow (row : obj) : obj :=
  let newRow := JS.spread row in
  fold_left
    (fun newRow key =>
       let v := JS.get newRow key in
       if negb (key =? "FIPS") && negb (key =? "Name") && negb (key =? "State Abbreviation")
          && negb (JS.isUndefined v) && negb (JS.isNull v) && negb (JS.isString v "")
       then
         let numValue := JS.parseFloat v in
         if negb (isNaN_num numValue) then JS.set newRow key (VNumber numValue) else newRow
       else newRow)
    (JS.keys newRow) newRow.

Definition stateOf (row : obj) : value :=
  JS.or_ (JS.or_ (JS.get row "State Abbreviation") (JS.get row "State")) (JS.get row "state").

(** The filter of [processData] *)
Definition keepRow (aggregationLevel : level) (row : obj) : value :=
  match aggregationLevel with
  | County =>
      JS.and_
        (JS.and_ (JS.get row "FIPS")
           (JS.or_ (JS.or_ (JS.get row "Name") (JS.get row "County")) (JS.get row "county")))
        (stateOf row)
  | State => stateOf row
  | Region => stateOf row
  end.

(** The four blocks that bring field names to [FIPS], [Name] and
    [State Abbreviation]. *)
Definition aliasFIPS (newRow : obj) : obj :=
  let alias := JS.or_ (JS.get newRow "fips") (JS.get newRow "FIPS Code") in
  if negb (JS.truthy (JS.get newRow "FIPS")) && JS.truthy alias
  then JS.set newRow "FIPS" alias else newRow.

Definition formatFIPS (newRow : obj) : obj :=
  if JS.truthy (JS.get newRow "FIPS")
  then JS.set newRow "FIPS" (VString (Str.padStart0 5 (JS.toString (JS.get newRow "FIPS"))))
  else newRow.

Definition aliasName (newRow : obj) : obj :=
  let alias :=
    JS.or_ (JS.or_ (JS.get newRow "County") (JS.get newRow "county")) (JS.get newRow "NAME") in
  if negb (JS.truthy (JS.get newRow "Name")) && JS.truthy alias
  then JS.set newRow "Name" alias else newRow.

Definition aliasState (newRow : obj) : obj :=
  let alias := JS.or_ (JS.get newRow "State") (JS.get newRow "state") in
  if negb (JS.truthy (JS.get newRow "State Abbreviation")) && JS.truthy alias
  then JS.set newRow "State Abbreviation" alias else newRow.

Definition standardizeRow (row : obj) : obj :=
  aliasState (aliasName (formatFIPS (aliasFIPS (JS.spread row)))).

Definition importantMetrics : list string :=
  [ "Adult Obesity raw value"; "Food Insecurity raw value"; "Physical Inactivity raw value";
    "Poor or Fair Health raw value"; "Median Household Income raw value";
    "Children in Poverty raw value"; "Life Expectancy raw value"; "Adult Smoking raw value";
    "Uninsured raw value"; "Mental Health Providers raw value"; "Unemployment raw value";
    "Income Inequality raw value"; "Air Pollution - Particulate Matter raw value";
    "Severe Housing Problems raw value"; "Insufficient Sleep raw value";
    "Broadband Access raw value"; "Premature Death raw value"; "Low Birthweight raw value";
    "Access to Exercise Opportunities raw value"; "Primary Care Physicians raw value";
    "Food Environment Index raw value"; "Dentists raw value";
    "Preventable Hospital Stays raw value"; "Mammography Screening raw value";
    "Flu Vaccinations raw value"; "High School Completion raw value";
    "Children in Single-Parent Households raw value"; "Injury Deaths raw value";
    "Driving Alone to Work raw value"; "Long Commute - Driving Alone raw value";
    "Voter Turnout raw value" ].

Definition healthMetrics : list string :=
  [ "Adult Obesity raw value"; "Food Insecurity raw value"; "Physical Inactivity raw value";
    "Poor or Fair Health raw value" ].

(** The aggregator of this file.  Grouping and the mean of a metric are
    the same code as in lib/data-processing.ts; a group by state also
    gets a two-character [FIPS] and a [Name]. *)
Definition aggregateGroup (field : string) (metrics : list string)
  (entry : string * list obj) : obj :=
  let (key, rows) := entry in
  let result : obj := [(field, VString key)] in
  let result :=
    fold_left
      (fun result metric =>
         let values := DataProcessing.numericValues rows metric in
         if (0 <? List.length values)%nat
         then JS.set result metric (VNumber (DataProcessing.meanOf values))
         else result)
      metrics result in
  let result := JS.set result (field ++ "Count") (VNumber (QNum.ofNat (List.length rows))) in
  if field =? "State Abbreviation" then
    let stateFips := JS.findGet (fun r => JS.truthy (JS.get r "FIPS")) rows "FIPS" in
    let result :=
      if JS.truthy stateFips
      then JS.set result "FIPS"
             (VString (Str.padStart0 2 (Str.prefixOf 2 (JS.toString stateFips))))
      else result in
    let stateName := JS.findGet (fun r => JS.truthy (JS.get r "Name")) rows "Name" in
    if JS.truthy stateName then JS.set result "Name" (VString key) else result
  else result.

Definition aggregateByField (data : list obj) (field : string) (metrics : list string)
  : list obj :=
  map (aggregateGroup field metrics) (JS.entries (DataProcessing.groupRows data field)).

Definition entityId (aggregationLevel : level) (entity : obj) : value :=
  match aggregationLevel with
  | County => JS.get entity "FIPS"
  | State => JS.get entity "State Abbreviation"
  | Region => JS.get entity "Region"
  end.

(** The running [sum] and [count] over the health metrics of one entity. *)
Definition burdenSums (entity : obj) : value * nat :=
  fold_left
    (fun (sc : value * nat) metric =>
       let v := JS.get entity metric in
       if negb (JS.isUndefined v) && negb (JS.isNaN v) then
         let normalizedValue := v in
         let sum :=
           if JS.le (VNumber (Fin 0%Q)) normalizedValue
              && JS.le normalizedValue (VNumber (Fin 1%Q))
           then JS.add (fst sc) normalizedValue
           else JS.add (fst sc) (VNumber (Fin (1 # 2))) in
         (sum, S (snd sc))
       else sc)
    healthMetrics (VNumber (Fin 0%Q), 0%nat).

(** [count > 0 ? sum / count : 0.5] *)
Definition burdenOf (entity : obj) : num Q :=
  let (sum, count) := burdenSums entity in
  if (0 <? count)%nat then JS.div sum (VNumber (QNum.ofNat count)) else Fin (1 # 2).

Definition healthBurdenIndex (aggregationLevel : level) (processedData : list obj)
  : dict (num Q) :=
  fold_left
    (fun hbi entity =>
       let id := entityId aggregationLevel entity in
       if JS.truthy id then JS.set hbi (JS.toString id) (burdenOf entity) else hbi)
    processedData [].

(** The metrics that have a value in at least one record. *)
Definition availableMetrics (processedData : list obj) : list string :=
  filter
    (fun metric =>
       existsb (fun d => negb (JS.isUndefined (JS.get d metric))
                         && negb (JS.isNull (JS.get d metric))) processedData)
    importantMetrics.

(** [standardizedData]: the rows after coercion, filtering and the
    standardisation of field names. *)
Definition standardizedRows (rawData : list obj) (aggregationLevel : level) : list obj :=
  let processedRawData := map coerceRow rawData in
  let filteredData :=
    filter (fun row => JS.truthy (keepRow aggregationLevel row)) processedRawData in
  map standardizeRow filteredData.

(** [processedData]: the rows themselves at county level, one record per
    state or per region otherwise. *)
Definition aggregated (standardizedData : list obj) (aggregationLevel : level) : list obj :=
  match aggregationLevel with
  | County => standardizedData
  | State => aggregateByField standardizedData "State Abbreviation" importantMetrics
  | Region =>
      let withRegions :=
        map (fun d => JS.set (JS.spread d) "Region"
                        (VString (DataProcessing.getRegionFromState
                                    (JS.get d "State Abbreviation"))))
          standardizedData in
      aggregateByField withRegions "Region" importantMetrics
  end.

(** What [processData] returns. *)
Record bundle : Type := mkBundle {
  rawData : list obj;
  processedData : list obj;
  metrics : list string;
  burdenIndex : dict (num Q);
  pcaResult : list pcaPoint;
  clusterAssignments : list Z
}.

Section Pipeline.

Variable rand : nat -> Q.

(** The two functions imported from lib/data-processing.ts. *)
Variable performPCA : list obj -> list string -> nat -> outcome (list pcaPoint).
Variable performClustering : list pcaPoint -> nat -> nat -> outcome (list Z).

(** The body of the [try] block. *)
Definition analysis (processedData : list obj) (metrics : list string) (c : nat)
  : outcome (list pcaPoint * list Z) :=
  let features := firstn (Nat.min 8 (List.length metrics)) metrics in
  if (0 <? List.length features)%nat then
    bind (performPCA processedData features c)
      (fun pcaResult c1 =>
         if (0 <? List.length pcaResult)%nat then
           bind (performClustering pcaResult (Nat.min 5 (List.length pcaResult)) c1)
             (fun clusterAssignments c2 => Returned (pcaResult, clusterAssignments) c2)
         else Returned (pcaResult, []) c1)
  else Returned ([], []) c.

(** The [catch] block: two draws per record for the coordinates, then one
    draw per record for [Math.floor(Math.random() * 5)]. *)
Definition fallbackPoints (n c : nat) : list pcaPoint :=
  map (fun i => {| pc1 := Fin (Q2R (rand (c + 2 * i)));
                   pc2 := Fin (Q2R (rand (c + 2 * i + 1)));
                   index := i |})
    (seq 0 n).

Definition fallbackLabels (n c : nat) : list Z :=
  map (fun i => Qfloor (rand (c + i) * 5)) (seq 0 n).

Definition tryAnalysis (processedData : list obj) (metrics : list string) (c : nat)
  : outcome (list pcaPoint * list Z) :=
  match analysis processedData metrics c with
  | Threw _ c1 =>
      let n := List.length processedData in
      Returned (fallbackPoints n c1, fallbackLabels n (c1 + 2 * n)) (c1 + 2 * n + n)
  | r => r
  end.

Definition processData (rawData : list obj) (aggregationLevel : level) (c : nat)
  : outcome bundle :=
  let standardizedData := standardizedRows rawData aggregationLevel in
  let processedData := aggregated standardizedData aggregationLevel in
  let healthBurdenIndex := healthBurdenIndex aggregationLevel processedData in
  let metrics := availableMetrics processedData in
  bind (tryAnalysis processedData metrics c)
    (fun r c' =>
       Returned {| rawData := standardizedData;
                   processedData := processedData;
                   metrics := metrics;
                   burdenIndex := healthBurdenIndex;
                   pcaResult := fst r;
                   clusterAssignments := snd r |} c').

End Pipeline.

(** [processData] with the imports it is linked with; [fuel] bounds the
    draws of the k-means initialisation. *)
Definition run (rand : nat -> Q) (fuel : nat) (rawData : list obj) (aggregationLevel : level)
  (c : nat) : outcome bundle :=
  processData rand (DataProcessing.performPCA rand) (DataProcessing.performClustering rand fuel)
    rawData aggregationLevel c.

End DataLoader.

(** ** components: the correlation matrix *)

Module Correlation.

(** [typeof d[m] === "string" ? Number.parseFloat(d[m]) : d[m]] *)
Definition operand (d : obj) (metric : string) : value :=
  let v := JS.get d metric in
  match v with
  | VString s => VNumber (Str.parseFloat s)
  | _ => v
  end.

Definition validPair (p : value * value) : bool :=
  negb (JS.isUndefined (fst p)) && negb (JS.isUndefined (snd p))
  && negb (JS.isNaN (fst p)) && negb (JS.isNaN (snd p))
  && negb (JS.isNull (fst p)) && negb (JS.isNull (snd p)).

Definition pairsOf (data : list obj) (xMetric yMetric : string) : list (value * value) :=
  filter validPair (map (fun d => (operand d xMetric, operand d yMetric)) data).

Definition xOf (p : value * value) : num R := RNum.ofQ (JS.toNumber (fst p)).
Definition yOf (p : value * value) : num R := RNum.ofQ (JS.toNumber (snd p)).

Definition meanBy (f : value * value -> num R) (pairs : list (value * value)) : num R :=
  RNum.div (fold_left (fun sum d => RNum.add sum (f d)) pairs (Fin 0%R))
    (RNum.ofNat (List.length pairs)).

(** The accumulators [numerator], [xDenominator], [yDenominator]. *)
Definition sums (pairs : list (value * value)) (xMean yMean : num R)
  : num R * num R * num R :=
  fold_left
    (fun (acc : num R * num R * num R) pair =>
       let '(numerator, xDenominator, yDenominator) := acc in
       let xDiff := RNum.sub (xOf pair) xMean in
       let yDiff := RNum.sub (yOf pair) yMean in
       (RNum.add numerator (RNum.mul xDiff yDiff),
        RNum.add xDenominator (RNum.mul xDiff xDiff),
        RNum.add yDenominator (RNum.mul yDiff yDiff)))
    pairs (Fin 0%R, Fin 0%R, Fin 0%R).

Definition calculateCorrelation (data : list obj) (xMetric yMetric : string) : num R :=
  let pairs := pairsOf data xMetric yMetric in
  if (List.length pairs <? 2)%nat then NaN
  else
    let xMean := meanBy xOf pairs in
    let yMean := meanBy yOf pairs in
    let '(numerator, xDenominator, yDenominator) := sums pairs xMean yMean in
    if RNum.isZero xDenominator || RNum.isZero yDenominator then NaN
    else RNum.div numerator (RNum.sqrt (RNum.mul xDenominator yDenominator)).

Definition calculateCorrelationMatrix (data : list obj) (metrics : list string)
  : list (string * string * num R) :=
  flat_map (fun y => map (fun x => (x, y, calculateCorrelation data x y)) metrics) metrics.

End Correlation.

(** ** The specification's side *)

Module Prescribed.

(** [0 <= a <= 1] *)
Definition inUnit (a : Q) : bool := Qle_bool 0 a && Qle_bool a 1.

(** The two cases in which the specification fixes the health burden
    index of an entity: the mean of the four health metrics when all are
    numbers in the unit interval, one half when none is present. *)
Definition burden (entity : obj) : option Q :=
  match map (JS.get entity) DataLoader.healthMetrics with
  | [VNumber (Fin a); VNumber (Fin b); VNumber (Fin c); VNumber (Fin d)] =>
      if inUnit a && inUnit b && inUnit c && inUnit d
      then Some ((a + b + c + d) / 4)%Q
      else None
  | [VUndefined; VUndefined; VUndefined; VUndefined] => Some (1 # 2)
  | _ => None
  end.

(** The rows that belong to the group [key]: those whose grouping value
    is truthy and reads [key] as a property name. *)
Definition inGroup (field key : string) (row : obj) : bool :=
  JS.truthy (JS.get row field) && (JS.toString (JS.get row field) =? key).

Definition groupMembers (data : list obj) (field key : string) : list obj :=
  filter (inGroup field key) data.

(** A value that is present, numeric and not NaN, as a rational. *)
Definition presentNumber (v : value) : option Q :=
  match v with
  | VUndefined | VNull => None
  | _ => match JS.toNumber v with Fin q => Some q | NaN => None end
  end.

Definition presentNumbers (rows : list obj) (metric : string) : list Q :=
  flat_map (fun r => match presentNumber (JS.get r metric) with
                     | Some q => [q]
                     | None => []
                     end) rows.

Definition arithmeticMean (l : list Q) : Q :=
  (fold_right Qplus 0 l / inject_Z (Z.of_nat (List.length l)))%Q.

(** The keys an aggregated record uses for something other than a metric. *)
Definition reservedKeys (field : string) : list string :=
  [field; (field ++ "Count")%string; "FIPS"; "Name"].












End Prescribed.

(** ** Sample inputs *)

Module Sample.

Definition autauga : obj :=
  [("FIPS", VString "1001"); ("Name", VString "Autauga"); ("State Abbreviation", VString "AL")].

Definition autauga_std : obj :=
  [("FIPS", VString "01001"); ("Name", VString "Autauga"); ("State Abbreviation", VString "AL")].

(** A row whose identifier has six characters. *)
Definition longFips : obj :=
  [("FIPS", VString "123456"); ("Name", VString "A"); ("State Abbreviation", VString "AL")].

(** Two county rows with the same identifier: the first with the four
    health metrics, the second with none. *)
Definition measured : obj :=
  [("FIPS", VString "01001"); ("Name", VString "A"); ("State Abbreviation", VString "AL");
   ("Adult Obesity raw value", VNumber (Fin (1 # 10)));
   ("Food Insecurity raw value", VNumber (Fin (2 # 10)));
   ("Physical Inactivity raw value", VNumber (Fin (3 # 10)));
   ("Poor or Fair Health raw value", VNumber (Fin (4 # 10)))].

Definition unmeasured : obj :=
  [("FIPS", VString "01001"); ("Name", VString "B"); ("State Abbreviation", VString "AL")].

(** The three county rows of the specification's scenario. *)
Definition threeCounties : list obj :=
  [ [("FIPS", VString "01001"); ("Name", VString "A"); ("State", VString "AL");
     ("Adult Obesity raw value", VNumber (Fin (3 # 10)))];
    [("FIPS", VString "01003"); ("Name", VString "B"); ("State", VString "AL");
     ("Adult Obesity raw value", VNumber (Fin (5 # 10)))];
    [("FIPS", VString "06001"); ("Name", VString "C"); ("State", VString "CA");
     ("Adult Obesity raw value", VNumber (Fin (2 # 10)))] ].


(** A file whose second data line has a blank metric cell. *)
Definition blankCellCsv : string :=
  "State Abbreviation,Adult Obesity raw value" ++ String DataLoader.LF
  ("AL,0.3" ++ String DataLoader.LF "AL,").





End Sample.

(** * Properties *)

(** ** The parsers and the object model on small inputs *)

Example parseFloat_int : Str.parseFloat "12" = Fin (12 # 1).
Proof. reflexivity. Qed.
Example parseFloat_prefix : Str.parseFloat "12abc" = Fin (12 # 1).
Proof. reflexivity. Qed.
Example parseFloat_frac : Str.parseFloat "  -0.25e1x" = Fin (- 5 # 2).
Proof. reflexivity. Qed.
Example parseFloat_dot : Str.parseFloat "." = NaN.
Proof. reflexivity. Qed.
Example parseFloat_exp : Str.parseFloat "5e" = Fin (5 # 1).
Proof. reflexivity. Qed.
Example toNumber_prefix : Str.toNumber "12abc" = NaN.
Proof. reflexivity. Qed.
Example toNumber_empty : Str.toNumber "" = Fin 0.
Proof. reflexivity. Qed.
Example toNumber_spaces : Str.toNumber " 1.50 " = Fin (3 # 2).
Proof. reflexivity. Qed.
Example toNumber_hex : Str.toNumber "0x1f" = Fin (31 # 1).
Proof. reflexivity. Qed.
Example ofNumber_ex : Str.ofNumber (Fin (-5 # 4)) = "-1.25" /\ Str.ofNumber (Fin (1001 # 1)) = "1001".
Proof. split; reflexivity. Qed.
Example split_ex : Str.split "," "a,,b" = ["a"; ""; "b"] /\ Str.split "," "" = [""].
Proof. split; reflexivity. Qed.
Example pad_ex : Str.padStart0 5 "1001" = "01001" /\ Str.padStart0 5 "123456" = "123456".
Proof. split; reflexivity. Qed.
Example entries_order :
  JS.keys [("b", 1%nat); ("10", 2%nat); ("a", 3%nat); ("2", 4%nat); ("01", 5%nat)]
  = ["2"; "10"; "b"; "a"; "01"].
Proof. reflexivity. Qed.

Example region_of_state :
  DataProcessing.getRegionFromState (VString "NY") = "Northeast"
  /\ DataProcessing.getRegionFromState (VString "ZZ") = "Unknown".
Proof. split; reflexivity. Qed.

(** The scenario of the specification: three county rows of two states,
    aggregated by state. *)
Example three_counties_by_state :
  DataLoader.aggregated (DataLoader.standardizedRows Sample.threeCounties State) State
  = [ [("State Abbreviation", VString "AL");
       ("Adult Obesity raw value", VNumber (Fin (2 # 5)));
       ("State AbbreviationCount", VNumber (Fin (2 # 1)));
       ("FIPS", VString "01"); ("Name", VString "AL")];
      [("State Abbreviation", VString "CA");
       ("Adult Obesity raw value", VNumber (Fin (1 # 5)));
       ("State AbbreviationCount", VNumber (Fin (1 # 1)));
       ("FIPS", VString "06"); ("Name", VString "CA")] ].
Proof. vm_compute. reflexivity. Qed.

(** ** No valid rows *)

(** The orchestrator of data-loader.ts has no guard for an empty filtered
    set: every later stage runs on the empty list and an empty bundle is
    returned. *)
Lemma loader_processData_no_rows rand pca clu rawData lvl c :
  filter (fun row => JS.truthy (DataLoader.keepRow lvl row)) (map DataLoader.coerceRow rawData) = [] ->
  DataLoader.processData rand pca clu rawData lvl c
  = Returned (DataLoader.mkBundle [] [] [] [] [] []) c.
Proof.
  intros Hf. unfold DataLoader.processData, DataLoader.standardizedRows. rewrite Hf.
  destruct lvl; reflexivity.
Qed.

(** The [processData] of data-processing.ts does have the guard. *)
Lemma processing_processData_no_rows data lvl :
  filter (fun d => JS.truthy (DataProcessing.keepRow lvl d)) data = [] ->
  DataProcessing.processData data lvl
  = inl (Error ("No valid data rows found for " ++ levelName lvl ++ " level aggregation")).
Proof.
  intros Hf. unfold DataProcessing.processData. rewrite Hf. reflexivity.
Qed.

(** C1 (as the code has it): on the empty input array [processData] of
    data-loader.ts, linked with its imports, returns normally with an empty
    bundle at every aggregation level; no error is raised. *)
Theorem loader_processData_empty_input rand fuel lvl c :
  DataLoader.run rand fuel [] lvl c = Returned (DataLoader.mkBundle [] [] [] [] [] []) c.
Proof.
  unfold DataLoader.run. apply loader_processData_no_rows. reflexivity.
Qed.

(** ** Coercion of strings *)

(** What the first step of [processData] does to a column that holds a
    string, on a row with that one column: [parseFloat] decides. *)
Lemma coerceRow_single key s :
  key <> "FIPS" -> key <> "Name" -> key <> "State Abbreviation" -> s <> "" ->
  DataLoader.coerceRow [(key, VString s)]
  = [(key, match Str.parseFloat s with
           | NaN => VString s
           | Fin q => VNumber (Fin q)
           end)].
Proof.
  intros H1 H2 H3 Hs.
  apply String.eqb_neq in H1. apply String.eqb_neq in H2. apply String.eqb_neq in H3.
  apply String.eqb_neq in Hs.
  assert (Hk : JS.keys [(key, VString s)] = [key]).
  { unfold JS.keys, JS.entries, JS.indexedEntries, JS.namedEntries.
    cbn [fold_left filter fst]. destruct (JS.arrayIndex key); reflexivity. }
  unfold DataLoader.coerceRow, JS.spread. rewrite Hk. cbn [fold_left].
  unfold JS.get. cbn [JS.lookup]. rewrite String.eqb_refl, H1, H2, H3.
  cbn [negb andb JS.isUndefined JS.isNull JS.isString JS.parseFloat]. rewrite Hs.
  cbn [negb andb]. destruct (Str.parseFloat s); cbn [isNaN_num negb JS.set].
  - reflexivity.
  - now rewrite String.eqb_refl.
Qed.

(** C2 (as the code has it): [parseCSV] keeps the cell 12abc a string, and
    the first step of [processData] then turns it into the number 12. *)
Theorem coerceRow_accepts_partial_parse :
  DataLoader.parseCSV ("Population" ++ String DataLoader.LF "12abc")
  = [[("Population", VString "12abc")]]
  /\ DataLoader.coerceRow [("Population", VString "12abc")]
     = [("Population", VNumber (Fin (12 # 1)))].
Proof. split; vm_compute; reflexivity. Qed.

(** ** Objects *)

Section Dict.

Context {A : Type}.

Lemma lookup_set_eq (o : dict A) k v : JS.lookup k (JS.set o k v) = Some v.
Proof.
  induction o as [|[k' v'] o IH]; simpl.
  - now rewrite String.eqb_refl.
  - destruct (k' =? k) eqn:E; simpl.
    + now rewrite String.eqb_refl.
    + now rewrite E.
Qed.

Lemma lookup_set_neq (o : dict A) k k' v :
  k <> k' -> JS.lookup k' (JS.set o k v) = JS.lookup k' o.
Proof.
  intros Hne. induction o as [|[k0 v0] o IH]; simpl.
  - apply String.eqb_neq in Hne. now rewrite Hne.
  - destruct (k0 =? k) eqn:E; simpl.
    + apply String.eqb_eq in E. subst k0.
      apply String.eqb_neq in Hne. now rewrite Hne.
    + destruct (k0 =? k'); auto.
Qed.

Lemma set_keys (o : dict A) k v k' :
  In k' (map fst (JS.set o k v)) <-> k' = k \/ In k' (map fst o).
Proof.
  induction o as [|[k0 v0] o IH]; simpl.
  - intuition.
  - destruct (k0 =? k) eqn:E; simpl.
    + apply String.eqb_eq in E. subst k0. intuition.
    + rewrite IH. intuition.
Qed.

Lemma NoDup_set (o : dict A) k v :
  NoDup (map fst o) -> NoDup (map fst (JS.set o k v)).
Proof.
  induction o as [|[k0 v0] o IH]; simpl; intros Hn.
  - constructor; [intros []|constructor].
  - inversion Hn as [|? ? Hnotin Hn']; subst.
    destruct (k0 =? k) eqn:E; simpl.
    + apply String.eqb_eq in E. subst k0. now constructor.
    + constructor; auto. rewrite set_keys. intros [->|Hin]; auto.
      now rewrite String.eqb_refl in E.
Qed.

Lemma In_lookup (o : dict A) k v :
  NoDup (map fst o) -> In (k, v) o -> JS.lookup k o = Some v.
Proof.
  induction o as [|[k0 v0] o IH]; simpl; intros Hn Hin; [easy|].
  inversion Hn as [|? ? Hnotin Hn']; subst.
  destruct Hin as [[= -> ->]|Hin].
  - now rewrite String.eqb_refl.
  - destruct (k0 =? k) eqn:E; auto.
    apply String.eqb_eq in E. subst k0.
    exfalso. apply Hnotin. now apply (in_map fst) in Hin.
Qed.

Lemma lookup_if_set (b : bool) (o : dict A) k v m :
  m <> k -> JS.lookup m (if b then JS.set o k v else o) = JS.lookup m o.
Proof. intros H. destruct b; auto. apply lookup_set_neq. congruence. Qed.

Lemma In_insertIndexed (i : Z) (e0 : string * A) l e :
  In e (map snd (JS.insertIndexed i e0 l)) <-> e = e0 \/ In e (map snd l).
Proof.
  induction l as [|[j f] l IH]; simpl.
  - intuition.
  - destruct (i <? j)%Z; simpl; [intuition|]. rewrite IH. intuition.
Qed.

Lemma In_indexedEntries (o : dict A) e :
  In e (map snd (JS.indexedEntries o)) <-> In e o /\ JS.arrayIndex (fst e) <> None.
Proof.
  unfold JS.indexedEntries.
  assert (G : forall acc,
             In e (map snd (fold_left
                              (fun acc e => match JS.arrayIndex (fst e) with
                                            | Some i => JS.insertIndexed i e acc
                                            | None => acc
                                            end) o acc))
             <-> In e (map snd acc) \/ (In e o /\ JS.arrayIndex (fst e) <> None)).
  { induction o as [|e0 o IH]; intros acc; simpl.
    - intuition.
    - rewrite IH. destruct (JS.arrayIndex (fst e0)) as [i|] eqn:E.
      + rewrite In_insertIndexed. split.
        * intros [[->|Hin]|[Hin Hidx]]; auto.
          right. split; [now left|congruence].
        * intros [Hin|[[->|Hin] Hidx]]; auto.
      + split.
        * intros [H|[H1 H2]]; auto.
        * intros [H|[[->|H1] H2]]; auto. congruence. }
  rewrite G. simpl. intuition.
Qed.

(** Enumeration lists exactly the properties of the object. *)
Lemma In_entries (o : dict A) e : In e (JS.entries o) <-> In e o.
Proof.
  unfold JS.entries, JS.namedEntries.
  rewrite in_app_iff, In_indexedEntries, filter_In.
  destruct (JS.arrayIndex (fst e)); intuition congruence.
Qed.

End Dict.


(** Enumeration is a rearrangement of the properties. *)
Section Enumeration.

Context {A : Type}.

Lemma insertIndexed_perm (i : Z) (e : string * A) l :
  Permutation (JS.insertIndexed i e l) ((i, e) :: l).
Proof.
  induction l as [|[j f] l IH]; cbn [JS.insertIndexed]; [reflexivity|].
  destruct (i <? j)%Z; [reflexivity|].
  rewrite IH. apply perm_swap.
Qed.

Lemma partition_perm (p : string * A -> bool) (l : dict A) :
  Permutation (filter p l ++ filter (fun e => negb (p e)) l) l.
Proof.
  induction l as [|e l IH]; cbn [filter]; [reflexivity|].
  destruct (p e); cbn [negb app].
  - now constructor.
  - rewrite <- Permutation_middle. now constructor.
Qed.

Lemma entries_perm (o : dict A) : Permutation (JS.entries o) o.
Proof.
  unfold JS.entries, JS.namedEntries, JS.indexedEntries.
  set (isIdx := fun e : string * A =>
                  match JS.arrayIndex (fst e) with Some _ => true | None => false end).
  assert (G : forall acc,
             Permutation
               (map snd (fold_left
                           (fun acc e => match JS.arrayIndex (fst e) with
                                         | Some i => JS.insertIndexed i e acc
                                         | None => acc
                                         end) o acc))
               (map snd acc ++ filter isIdx o)).
  { induction o as [|e o IH]; intros acc; cbn [fold_left filter].
    - now rewrite app_nil_r.
    - rewrite IH. unfold isIdx at 2.
      destruct (JS.arrayIndex (fst e)) as [i|].
      + rewrite (Permutation_map snd (insertIndexed_perm i e acc)). cbn [map snd app].
        apply Permutation_middle.
      + reflexivity. }
  rewrite G. cbn [map app].
  rewrite (filter_ext
             (fun e : string * A =>
                match JS.arrayIndex (fst e) with Some _ => false | None => true end)
             (fun e => negb (isIdx e))).
  - apply partition_perm.
  - intros e. unfold isIdx. destruct (JS.arrayIndex (fst e)); reflexivity.
Qed.

End Enumeration.

Lemma get_set_eq (o : obj) k v : JS.get (JS.set o k v) k = v.
Proof. unfold JS.get. now rewrite lookup_set_eq. Qed.

Lemma get_set_neq (o : obj) k k' v : k <> k' -> JS.get (JS.set o k v) k' = JS.get o k'.
Proof. intros H. unfold JS.get. now rewrite lookup_set_neq. Qed.

(** ** Field standardisation *)

Lemma truthy_and a b : JS.truthy (JS.and_ a b) = JS.truthy a && JS.truthy b.
Proof. unfold JS.and_. destruct (JS.truthy a) eqn:E; simpl; auto. Qed.

Lemma truthy_or a b : JS.truthy (JS.or_ a b) = JS.truthy a || JS.truthy b.
Proof. unfold JS.or_. destruct (JS.truthy a) eqn:E; simpl; auto. Qed.

Lemma length_string_of_list l : String.length (string_of_list_ascii l) = List.length l.
Proof. induction l; simpl; auto. Qed.

Lemma length_append s t : String.length (s ++ t) = (String.length s + String.length t)%nat.
Proof. induction s; simpl; auto. Qed.

Lemma padStart0_length n s : (n <= String.length (Str.padStart0 n s))%nat.
Proof.
  unfold Str.padStart0.
  rewrite length_append, length_string_of_list, repeat_length. lia.
Qed.

Lemma aliasName_get r k : k <> "Name" -> JS.get (DataLoader.aliasName r) k = JS.get r k.
Proof.
  intros Hk. unfold DataLoader.aliasName.
  destruct (negb _ && _); auto. apply get_set_neq. congruence.
Qed.

Lemma aliasState_get r k :
  k <> "State Abbreviation" -> JS.get (DataLoader.aliasState r) k = JS.get r k.
Proof.
  intros Hk. unfold DataLoader.aliasState.
  destruct (negb _ && _); auto. apply get_set_neq. congruence.
Qed.

Lemma formatFIPS_get r k : k <> "FIPS" -> JS.get (DataLoader.formatFIPS r) k = JS.get r k.
Proof.
  intros Hk. unfold DataLoader.formatFIPS.
  destruct (JS.truthy _); auto. apply get_set_neq. congruence.
Qed.

Lemma aliasName_truthy r :
  JS.truthy (JS.get r "Name") || JS.truthy (JS.get r "County")
  || JS.truthy (JS.get r "county") = true ->
  JS.truthy (JS.get (DataLoader.aliasName r) "Name") = true.
Proof.
  unfold DataLoader.aliasName. intros H.
  destruct (JS.truthy (JS.get r "Name")) eqn:En; cbn [negb andb]; auto.
  cbn [orb] in H.
  assert (Ha : JS.truthy (JS.or_ (JS.or_ (JS.get r "County") (JS.get r "county"))
                            (JS.get r "NAME")) = true).
  { rewrite !truthy_or, H. reflexivity. }
  rewrite Ha, get_set_eq. exact Ha.
Qed.

Lemma aliasState_truthy r :
  JS.truthy (JS.get r "State Abbreviation") || JS.truthy (JS.get r "State")
  || JS.truthy (JS.get r "state") = true ->
  JS.truthy (JS.get (DataLoader.aliasState r) "State Abbreviation") = true.
Proof.
  unfold DataLoader.aliasState. intros H.
  destruct (JS.truthy (JS.get r "State Abbreviation")) eqn:En; cbn [negb andb]; auto.
  cbn [orb] in H.
  assert (Ha : JS.truthy (JS.or_ (JS.get r "State") (JS.get r "state")) = true).
  { now rewrite truthy_or. }
  rewrite Ha, get_set_eq. exact Ha.
Qed.

(** The formatting step of [fetchAndProcessData] pads in the same way. *)
Lemma padFIPS_formats row :
  JS.isUndefined (JS.get row "FIPS") = false ->
  JS.get (DataLoader.padFIPS row) "FIPS"
  = VString (Str.padStart0 5 (JS.toString (JS.get row "FIPS")))
  /\ (5 <= String.length (Str.padStart0 5 (JS.toString (JS.get row "FIPS"))))%nat.
Proof.
  intros H. unfold DataLoader.padFIPS. rewrite H. cbn [negb].
  split; [apply get_set_eq|apply padStart0_length].
Qed.

(** What a county row that passes the filter looks like afterwards. *)
Lemma standardizeRow_county row :
  JS.truthy (DataLoader.keepRow County row) = true ->
  JS.get (DataLoader.standardizeRow row) "FIPS"
  = VString (Str.padStart0 5 (JS.toString (JS.get row "FIPS")))
  /\ JS.truthy (JS.get (DataLoader.standardizeRow row) "Name") = true
  /\ JS.truthy (JS.get (DataLoader.standardizeRow row) "State Abbreviation") = true.
Proof.
  unfold DataLoader.keepRow, DataLoader.stateOf.
  rewrite !truthy_and, !andb_true_iff, !truthy_or.
  intros [[Hf Hn] Hs].
  unfold DataLoader.standardizeRow, JS.spread.
  assert (E1 : DataLoader.aliasFIPS row = row).
  { unfold DataLoader.aliasFIPS. now rewrite Hf. }
  rewrite E1.
  assert (E2 : DataLoader.formatFIPS row
               = JS.set row "FIPS" (VString (Str.padStart0 5 (JS.toString (JS.get row "FIPS"))))).
  { unfold DataLoader.formatFIPS. now rewrite Hf. }
  split; [|split].
  - rewrite aliasState_get, aliasName_get by discriminate.
    rewrite E2. apply get_set_eq.
  - rewrite aliasState_get by discriminate. apply aliasName_truthy.
    now rewrite !formatFIPS_get by discriminate.
  - apply aliasState_truthy.
    rewrite !aliasName_get by discriminate.
    now rewrite !formatFIPS_get by discriminate.
Qed.

(** The fields of a returned bundle that do not depend on the analysis. *)
Lemma processData_bundle rand pca clu rawData lvl c b c' :
  DataLoader.processData rand pca clu rawData lvl c = Returned b c' ->
  DataLoader.rawData b = DataLoader.standardizedRows rawData lvl
  /\ DataLoader.processedData b
     = DataLoader.aggregated (DataLoader.standardizedRows rawData lvl) lvl
  /\ DataLoader.metrics b = DataLoader.availableMetrics (DataLoader.processedData b)
  /\ DataLoader.burdenIndex b
     = DataLoader.healthBurdenIndex lvl (DataLoader.processedData b).
Proof.
  unfold DataLoader.processData.
  destruct (DataLoader.tryAnalysis _ _ _ _ _ _) as [r c1| |]; simpl; try discriminate.
  intros [= <- <-]. simpl. auto.
Qed.

(** C9 (counterexample): a county row whose [FIPS] has six characters
    passes the filter and keeps its six characters, since padding never
    shortens. *)
Lemma county_fips_longer_than_5 :
  DataLoader.run (fun _ => 0%Q) 0 [Sample.longFips] County 0
  = Returned (DataLoader.mkBundle [Sample.longFips] [Sample.longFips] []
                [("123456", Fin (1 # 2))] [] []) 0
  /\ ~ (exists s, JS.get Sample.longFips "FIPS" = VString s /\ String.length s = 5%nat).
Proof.
  split; [vm_compute; reflexivity|].
  intros [s [E L]]. vm_compute in E. injection E as <-. discriminate L.
Qed.

(** C9 (amended): every record that [processData] keeps at county level
    has for [FIPS] the string form of the row's identifier padded on the
    left with zeros to at least 5 characters, and a truthy [Name] and
    [State Abbreviation]. *)
Theorem county_rows_identified rand pca clu rawData c b c' r :
  DataLoader.processData rand pca clu rawData County c = Returned b c' ->
  In r (DataLoader.rawData b) ->
  DataLoader.processedData b = DataLoader.rawData b
  /\ exists row,
      In row (map DataLoader.coerceRow rawData)
      /\ r = DataLoader.standardizeRow row
      /\ JS.get r "FIPS" = VString (Str.padStart0 5 (JS.toString (JS.get row "FIPS")))
      /\ (5 <= String.length (Str.padStart0 5 (JS.toString (JS.get row "FIPS"))))%nat
      /\ JS.truthy (JS.get r "Name") = true
      /\ JS.truthy (JS.get r "State Abbreviation") = true.
Proof.
  intros Hrun Hin.
  destruct (processData_bundle _ _ _ _ _ _ _ _ Hrun) as (Hraw & Hproc & _).
  split; [now rewrite Hproc, Hraw|].
  rewrite Hraw in Hin. unfold DataLoader.standardizedRows in Hin.
  apply in_map_iff in Hin. destruct Hin as [row [<- Hrow]].
  apply filter_In in Hrow. destruct Hrow as [Hrow Hkeep].
  exists row. destruct (standardizeRow_county row Hkeep) as (Hf & Hn & Hs).
  repeat split; auto. apply padStart0_length.
Qed.

Lemma county_rows_identified_witness :
  DataLoader.run (fun _ => 0%Q) 0 [Sample.autauga] County 0
  = Returned (DataLoader.mkBundle [Sample.autauga_std] [Sample.autauga_std] []
                [("01001", Fin (1 # 2))] [] []) 0
  /\ In Sample.autauga_std [Sample.autauga_std]
  /\ JS.get Sample.autauga_std "FIPS" = VString "01001"
  /\ JS.truthy (JS.get Sample.autauga_std "Name") = true.
Proof.
  assert (Hrun : DataLoader.run (fun _ => 0%Q) 0 [Sample.autauga] County 0
                 = Returned (DataLoader.mkBundle [Sample.autauga_std] [Sample.autauga_std] []
                               [("01001", Fin (1 # 2))] [] []) 0)
    by (vm_compute; reflexivity).
  assert (Hin : In Sample.autauga_std [Sample.autauga_std]) by (left; reflexivity).
  destruct (county_rows_identified _ _ _ _ _ _ _ _ Hrun Hin)
    as (_ & row & _ & _ & Hf & _ & Hn & _).
  repeat split; auto.
Defined.

(** ** The health burden index *)

Lemma burdenOf_prescribed entity q0 :
  Prescribed.burden entity = Some q0 ->
  exists q, DataLoader.burdenOf entity = Fin q /\ (q == q0)%Q.
Proof.
  unfold Prescribed.burden, DataLoader.burdenOf, DataLoader.burdenSums.
  cbn [map fold_left DataLoader.healthMetrics].
  destruct (JS.get entity "Adult Obesity raw value") as [| |[|a]|]; try discriminate;
    destruct (JS.get entity "Food Insecurity raw value") as [| |[|b]|]; try discriminate;
    destruct (JS.get entity "Physical Inactivity raw value") as [| |[|c0]|]; try discriminate;
    destruct (JS.get entity "Poor or Fair Health raw value") as [| |[|d]|]; try discriminate.
  - intros [= <-]. exists (1 # 2). split; reflexivity.
  - unfold Prescribed.inUnit.
    cbn -[Qred Qle_bool Qeq_bool Qplus Qdiv inject_Z].
    destruct (Qle_bool 0 a); [|discriminate]. destruct (Qle_bool a 1); [|discriminate].
    destruct (Qle_bool 0 b); [|discriminate]. destruct (Qle_bool b 1); [|discriminate].
    destruct (Qle_bool 0 c0); [|discriminate]. destruct (Qle_bool c0 1); [|discriminate].
    destruct (Qle_bool 0 d); [|discriminate]. destruct (Qle_bool d 1); [|discriminate].
    intros [= <-]. cbn -[Qred Qle_bool Qeq_bool Qplus Qdiv inject_Z].
    eexists. split; [reflexivity|].
    rewrite !Qred_correct. field.
Qed.

Lemma healthBurdenIndex_last lvl pre entity post :
  JS.truthy (DataLoader.entityId lvl entity) = true ->
  (forall e, In e post -> JS.truthy (DataLoader.entityId lvl e) = true ->
             JS.toString (DataLoader.entityId lvl e)
             <> JS.toString (DataLoader.entityId lvl entity)) ->
  JS.lookup (JS.toString (DataLoader.entityId lvl entity))
    (DataLoader.healthBurdenIndex lvl (pre ++ entity :: post))
  = Some (DataLoader.burdenOf entity).
Proof.
  intros Hid Hpost. unfold DataLoader.healthBurdenIndex.
  rewrite fold_left_app. cbn [fold_left]. rewrite Hid.
  set (acc := JS.set _ _ _).
  assert (Hacc : JS.lookup (JS.toString (DataLoader.entityId lvl entity)) acc
                 = Some (DataLoader.burdenOf entity)) by apply lookup_set_eq.
  clearbody acc. revert acc Hacc.
  induction post as [|e post IH]; intros acc Hacc; cbn [fold_left]; auto.
  apply IH.
  - intros e' He'. apply Hpost. now right.
  - destruct (JS.truthy (DataLoader.entityId lvl e)) eqn:E; auto.
    rewrite lookup_set_neq; auto. apply Hpost; auto. now left.
Qed.

(** C4 (counterexample): two county rows share an identifier; the first
    has the four metrics (mean 1/4), the second has none and is processed
    last, so the index stored for the identifier is 1/2. *)
Lemma burden_index_duplicate_id :
  DataLoader.aggregated (DataLoader.standardizedRows [Sample.measured; Sample.unmeasured] County)
    County = [Sample.measured; Sample.unmeasured]
  /\ JS.truthy (DataLoader.entityId County Sample.measured) = true
  /\ Prescribed.burden Sample.measured
     = Some (((1 # 10) + (2 # 10) + (3 # 10) + (4 # 10)) / 4)%Q
  /\ JS.lookup (JS.toString (DataLoader.entityId County Sample.measured))
       (DataLoader.healthBurdenIndex County [Sample.measured; Sample.unmeasured])
     = Some (Fin (1 # 2))
  /\ ~ ((1 # 2) == ((1 # 10) + (2 # 10) + (3 # 10) + (4 # 10)) / 4)%Q.
Proof.
  repeat split; try (vm_compute; reflexivity).
  intros H. vm_compute in H. discriminate H.
Qed.

(** C4 (amended): for an entity of the processed data with a truthy id
    that no later entity shares, the index stored under that id is the mean
    of the four health metrics when all are numbers in [0,1], and 1/2 when
    none of them is present. *)
Theorem burden_index_of_entity lvl pre entity post q0 :
  JS.truthy (DataLoader.entityId lvl entity) = true ->
  (forall e, In e post -> JS.truthy (DataLoader.entityId lvl e) = true ->
             JS.toString (DataLoader.entityId lvl e)
             <> JS.toString (DataLoader.entityId lvl entity)) ->
  Prescribed.burden entity = Some q0 ->
  exists q,
    JS.lookup (JS.toString (DataLoader.entityId lvl entity))
      (DataLoader.healthBurdenIndex lvl (pre ++ entity :: post)) = Some (Fin q)
    /\ (q == q0)%Q.
Proof.
  intros Hid Hpost Hp.
  destruct (burdenOf_prescribed entity q0 Hp) as [q [Hq Heq]].
  exists q. split; auto. rewrite healthBurdenIndex_last; auto. now rewrite Hq.
Qed.

Lemma burden_index_of_entity_witness :
  exists q,
    JS.lookup "01001"
      (DataLoader.healthBurdenIndex County ([Sample.autauga_std] ++ Sample.measured :: []))
    = Some (Fin q)
    /\ (q == (1 # 4))%Q.
Proof.
  assert (Hid : JS.truthy (DataLoader.entityId County Sample.measured) = true)
    by reflexivity.
  assert (Hpost : forall e, In e [] -> JS.truthy (DataLoader.entityId County e) = true ->
                    JS.toString (DataLoader.entityId County e)
                    <> JS.toString (DataLoader.entityId County Sample.measured))
    by (intros e []).
  assert (Hp : Prescribed.burden Sample.measured
               = Some (((1 # 10) + (2 # 10) + (3 # 10) + (4 # 10)) / 4)%Q) by reflexivity.
  destruct (burden_index_of_entity County [Sample.autauga_std] Sample.measured [] _ Hid Hpost Hp)
    as [q [Hq Heq]].
  exists q. split; [exact Hq|]. rewrite Heq. reflexivity.
Defined.

(** ** Aggregation *)

Lemma groupMembers_snoc data field key row :
  Prescribed.groupMembers (data ++ [row]) field key
  = Prescribed.groupMembers data field key
    ++ (if Prescribed.inGroup field key row then [row] else []).
Proof. unfold Prescribed.groupMembers. rewrite filter_app. reflexivity. Qed.

(** After grouping, every key is bound to the rows of its group, in their
    order, and only non-empty groups are bound. *)
Lemma groupRows_spec data field :
  NoDup (map fst (DataProcessing.groupRows data field))
  /\ forall key,
      JS.lookup key (DataProcessing.groupRows data field)
      = match Prescribed.groupMembers data field key with
        | [] => None
        | rows => Some rows
        end.
Proof.
  unfold DataProcessing.groupRows.
  set (step := fun (groups : dict (list obj)) (row : obj) => _).
  assert (G : forall rest done groups,
             (NoDup (map fst groups)
              /\ forall key, JS.lookup key groups
                             = match Prescribed.groupMembers done field key with
                               | [] => None
                               | rows => Some rows
                               end) ->
             NoDup (map fst (fold_left step rest groups))
             /\ forall key, JS.lookup key (fold_left step rest groups)
                            = match Prescribed.groupMembers (done ++ rest) field key with
                              | [] => None
                              | rows => Some rows
                              end).
  { induction rest as [|row rest IH]; intros done groups [Hnd Hl].
    - rewrite app_nil_r. auto.
    - cbn [fold_left].
      replace (done ++ row :: rest) with ((done ++ [row]) ++ rest)
        by (rewrite <- app_assoc; reflexivity).
      apply IH. unfold step.
      destruct (JS.truthy (JS.get row field)) eqn:Et; cbn [negb].
      + assert (Hk : forall key, JS.toString (JS.get row field) <> key ->
                       Prescribed.groupMembers (done ++ [row]) field key
                       = Prescribed.groupMembers done field key).
        { intros key Hne. rewrite groupMembers_snoc. unfold Prescribed.inGroup.
          apply String.eqb_neq in Hne. rewrite Hne, andb_false_r. apply app_nil_r. }
        assert (Hs : Prescribed.groupMembers (done ++ [row]) field
                       (JS.toString (JS.get row field))
                     = Prescribed.groupMembers done field (JS.toString (JS.get row field))
                       ++ [row]).
        { rewrite groupMembers_snoc. unfold Prescribed.inGroup.
          now rewrite Et, String.eqb_refl. }
        pose proof (Hl (JS.toString (JS.get row field))) as Hcur.
        destruct (JS.lookup (JS.toString (JS.get row field)) groups) as [rows|] eqn:El.
        * split; [now apply NoDup_set|]. intros key.
          destruct (string_dec (JS.toString (JS.get row field)) key) as [<-|Hne].
          -- rewrite lookup_set_eq, Hs.
             destruct (Prescribed.groupMembers done field (JS.toString (JS.get row field)));
               [discriminate|].
             injection Hcur as ->. reflexivity.
          -- rewrite lookup_set_neq by assumption. rewrite Hk by assumption. apply Hl.
        * split; [now apply NoDup_set|]. intros key.
          destruct (string_dec (JS.toString (JS.get row field)) key) as [<-|Hne].
          -- rewrite lookup_set_eq, Hs.
             destruct (Prescribed.groupMembers done field (JS.toString (JS.get row field)));
               [reflexivity|discriminate].
          -- rewrite lookup_set_neq by assumption. rewrite Hk by assumption. apply Hl.
      + split; auto. intros key. rewrite groupMembers_snoc. unfold Prescribed.inGroup.
        rewrite Et. cbn [andb]. rewrite app_nil_r. apply Hl. }
  apply (G data [] []). split; [constructor|]. intros key. reflexivity.
Qed.

(** The groups that are enumerated are the non-empty groups of the data. *)
Lemma groupRows_entries data field key rows :
  In (key, rows) (JS.entries (DataProcessing.groupRows data field)) ->
  rows = Prescribed.groupMembers data field key /\ rows <> [].
Proof.
  intros Hin. apply (proj1 (In_entries _ _)) in Hin.
  destruct (groupRows_spec data field) as [Hnd Hl].
  pose proof (In_lookup _ _ _ Hnd Hin) as Hlk. rewrite Hl in Hlk.
  destruct (Prescribed.groupMembers data field key); [discriminate|].
  injection Hlk as <-. split; [reflexivity|discriminate].
Qed.

(** The values that enter a mean are the present numbers of the rows. *)
Lemma numericValues_present rows col :
  DataProcessing.numericValues rows col = map Fin (Prescribed.presentNumbers rows col).
Proof.
  unfold DataProcessing.numericValues, Prescribed.presentNumbers.
  induction rows as [|r rows IH]; [reflexivity|].
  cbn [map filter flat_map]. rewrite map_app, <- IH.
  unfold Prescribed.presentNumber, JS.isNaN.
  destruct (JS.get r col) as [| |n|t]; cbn [JS.isUndefined JS.isNull negb andb]; auto.
  - cbn [JS.toNumber]. destruct n; reflexivity.
  - destruct (JS.toNumber (VString t)) eqn:E; cbn [isNaN_num negb map app]; auto.
    now rewrite E.
Qed.

Lemma sum_Fin (l : list Q) (a : Q) :
  exists q, fold_left QNum.add (map Fin l) (Fin a) = Fin q
            /\ (q == a + fold_right Qplus 0 l)%Q.
Proof.
  revert a. induction l as [|x l IH]; intros a; cbn [map fold_left fold_right].
  - exists a. split; [reflexivity|ring].
  - cbn [QNum.add]. destruct (IH (Qred (a + x))) as [q [Hq He]].
    exists q. split; [exact Hq|]. rewrite He, Qred_correct. ring.
Qed.

(** The mean the code computes is the arithmetic mean. *)
Lemma meanOf_Fin (l : list Q) :
  l <> [] ->
  exists q, DataProcessing.meanOf (map Fin l) = Fin q /\ (q == Prescribed.arithmeticMean l)%Q.
Proof.
  intros Hne. unfold DataProcessing.meanOf, QNum.zero.
  destruct (sum_Fin l 0) as [s [Hs He]]. rewrite Hs.
  rewrite length_map. unfold QNum.ofNat, QNum.div.
  assert (Hn : Qeq_bool (inject_Z (Z.of_nat (List.length l))) 0 = false).
  { destruct l as [|x l]; [congruence|]. reflexivity. }
  rewrite Hn. eexists. split; [reflexivity|].
  unfold Prescribed.arithmeticMean. rewrite Qred_correct, He.
  rewrite Qplus_0_l. reflexivity.
Qed.

Lemma fold_means_lookup (skip : string -> bool) rows cols (result : obj) m :
  JS.lookup m
    (fold_left
       (fun result col =>
          if skip col then result
          else if (0 <? List.length (DataProcessing.numericValues rows col))%nat
               then JS.set result col
                      (VNumber (DataProcessing.meanOf (DataProcessing.numericValues rows col)))
               else result)
       cols result)
  = if existsb (fun c => (c =? m) && negb (skip c)) cols
       && (0 <? List.length (DataProcessing.numericValues rows m))%nat
    then Some (VNumber (DataProcessing.meanOf (DataProcessing.numericValues rows m)))
    else JS.lookup m result.
Proof.
  revert result. induction cols as [|c cols IH]; intros result; cbn [fold_left existsb].
  - reflexivity.
  - rewrite IH.
    destruct (existsb _ cols && _) eqn:Ex.
    + apply andb_true_iff in Ex. destruct Ex as [-> ->]. now rewrite orb_true_r.
    + destruct (c =? m) eqn:Ec.
      * apply String.eqb_eq in Ec. subst c.
        destruct (skip m); cbn [negb andb orb].
        -- now rewrite Ex.
        -- destruct (0 <? _)%nat eqn:En; [apply lookup_set_eq|reflexivity].
      * cbn [andb orb]. rewrite Ex. apply String.eqb_neq in Ec.
        destruct (skip c); auto.
        destruct (0 <? List.length (DataProcessing.numericValues rows c))%nat; auto.
        now apply lookup_set_neq.
Qed.

Lemma append_Count_neq (s : string) : s <> (s ++ "Count")%string.
Proof.
  intros H. apply (f_equal String.length) in H. rewrite length_append in H.
  simpl in H. lia.
Qed.

Lemma existsb_mem (m : string) (skip : string -> bool) l :
  In m l -> skip m = false -> existsb (fun c => (c =? m) && negb (skip c)) l = true.
Proof.
  intros Hin Hs. apply existsb_exists. exists m. split; auto.
  now rewrite String.eqb_refl, Hs.
Qed.

Lemma existsb_not_mem (m : string) (skip : string -> bool) l :
  ~ In m l -> existsb (fun c => (c =? m) && negb (skip c)) l = false.
Proof.
  intros Hn. apply not_true_is_false. intros H. apply existsb_exists in H.
  destruct H as [c [Hc Hm]]. apply andb_true_iff in Hm. destruct Hm as [Hm _].
  apply String.eqb_eq in Hm. subst c. auto.
Qed.

(** One aggregated record of data-loader.ts, key by key. *)
Lemma loader_aggregateGroup_spec field metrics key rows :
  Forall (fun m => ~ In m (Prescribed.reservedKeys field)) metrics ->
  JS.get (DataLoader.aggregateGroup field metrics (key, rows)) field = VString key
  /\ JS.get (DataLoader.aggregateGroup field metrics (key, rows)) (field ++ "Count")
     = VNumber (QNum.ofNat (List.length rows))
  /\ forall m, In m metrics ->
       JS.lookup m (DataLoader.aggregateGroup field metrics (key, rows))
       = if (0 <? List.length (DataProcessing.numericValues rows m))%nat
         then Some (VNumber (DataProcessing.meanOf (DataProcessing.numericValues rows m)))
         else None.
Proof.
  intros Hres. rewrite Forall_forall in Hres.
  assert (Hfield : ~ In field metrics).
  { intros H. apply (Hres _ H). now left. }
  assert (Hcount : ~ In (field ++ "Count")%string metrics).
  { intros H. apply (Hres _ H). right. now left. }
  unfold DataLoader.aggregateGroup.
  set (R1 := fold_left _ metrics _).
  assert (F1 : forall m,
             JS.lookup m R1
             = if existsb (fun c => (c =? m) && negb false) metrics
                  && (0 <? List.length (DataProcessing.numericValues rows m))%nat
               then Some (VNumber (DataProcessing.meanOf (DataProcessing.numericValues rows m)))
               else JS.lookup m [(field, VString key)]).
  { intros m. unfold R1.
    apply (fold_means_lookup (fun _ => false) rows metrics [(field, VString key)] m). }
  set (R2 := JS.set R1 _ _).
  assert (F2 : forall m, m <> (field ++ "Count")%string -> JS.lookup m R2 = JS.lookup m R1).
  { intros m Hm. unfold R2. apply lookup_set_neq. congruence. }
  assert (Gf : JS.get R2 field = VString key).
  { unfold JS.get. rewrite F2 by apply append_Count_neq.
    rewrite F1, existsb_not_mem by assumption. cbn. now rewrite String.eqb_refl. }
  assert (Gc : JS.get R2 (field ++ "Count") = VNumber (QNum.ofNat (List.length rows))).
  { unfold R2. apply get_set_eq. }
  assert (Gm : forall m, In m metrics ->
             JS.lookup m R2
             = if (0 <? List.length (DataProcessing.numericValues rows m))%nat
               then Some (VNumber (DataProcessing.meanOf (DataProcessing.numericValues rows m)))
               else None).
  { intros m Hm. rewrite F2 by (intros ->; auto). rewrite F1.
    rewrite existsb_mem by auto. cbn [andb].
    destruct (0 <? _)%nat; auto. cbn.
    destruct (field =? m) eqn:E; auto. apply String.eqb_eq in E. subst m. tauto. }
  destruct (field =? "State Abbreviation") eqn:Ef; [|auto].
  apply String.eqb_eq in Ef.
  assert (F4 : forall m b3 b4 x y,
             m <> "FIPS" -> m <> "Name" ->
             JS.lookup m (if b4 : bool
                          then JS.set (if b3 : bool then JS.set R2 "FIPS" x else R2) "Name" y
                          else if b3 then JS.set R2 "FIPS" x else R2)
             = JS.lookup m R2).
  { intros m b3 b4 x y Hm Hn. rewrite lookup_if_set by congruence.
    now rewrite lookup_if_set by congruence. }
  split; [|split].
  - unfold JS.get. rewrite F4; [exact Gf| |]; subst field; discriminate.
  - unfold JS.get. rewrite F4; [exact Gc| |]; subst field; discriminate.
  - intros m Hm. rewrite F4; [now apply Gm| |]; intros ->; apply (Hres _ Hm); simpl; auto.
Qed.




Lemma importantMetrics_not_reserved field :
  field = "State Abbreviation" \/ field = "Region" ->
  Forall (fun m => ~ In m (Prescribed.reservedKeys field)) DataLoader.importantMetrics.
Proof.
  intros [-> | ->]; unfold DataLoader.importantMetrics;
    repeat (constructor; [intros [H|[H|[H|[H|[]]]]]; discriminate H|]); constructor.
Qed.


Lemma numericValues_app a b col :
  DataProcessing.numericValues (a ++ b) col
  = DataProcessing.numericValues a col ++ DataProcessing.numericValues b col.
Proof.
  unfold DataProcessing.numericValues. now rewrite map_app, filter_app, map_app.
Qed.

Lemma presentNumbers_app a b col :
  Prescribed.presentNumbers (a ++ b) col
  = Prescribed.presentNumbers a col ++ Prescribed.presentNumbers b col.
Proof. unfold Prescribed.presentNumbers. apply flat_map_app. Qed.

(** C10: the empty string, which is what [parseCSV] stores for a blank
    cell, passes the aggregator's filter as the number 0: in every group
    with a row that has it for a metric, 0 is among the contributing
    values at the place of that row, the metric is not omitted, and its
    aggregate is the mean of the contributing values, the 0 included. *)
Theorem blank_cell_counts_as_zero data field metrics metric res :
  Forall (fun m => ~ In m (Prescribed.reservedKeys field)) metrics ->
  In metric metrics ->
  In res (DataLoader.aggregateByField data field metrics) ->
  DataLoader.cellValue "" = VString ""
  /\ exists key,
      JS.get res field = VString key
      /\ forall pre r post,
           Prescribed.groupMembers data field key = pre ++ r :: post ->
           JS.get r metric = VString "" ->
           DataProcessing.numericValues (pre ++ r :: post) metric
           = DataProcessing.numericValues pre metric
             ++ Fin 0%Q :: DataProcessing.numericValues post metric
           /\ exists q,
               JS.get res metric = VNumber (Fin q)
               /\ (q == Prescribed.arithmeticMean
                          (Prescribed.presentNumbers pre metric
                           ++ 0 :: Prescribed.presentNumbers post metric))%Q.
Proof.
  intros Hres Hmetric Hin. split; [reflexivity|].
  apply in_map_iff in Hin. destruct Hin as [[key rows] [<- Hin]].
  apply groupRows_entries in Hin. destruct Hin as [-> Hne].
  destruct (loader_aggregateGroup_spec field metrics key
              (Prescribed.groupMembers data field key) Hres) as (Hf & _ & Hm).
  exists key. split; [exact Hf|].
  intros pre r post Hrows Hblank.
  assert (Hone : DataProcessing.numericValues [r] metric = [Fin 0%Q]).
  { unfold DataProcessing.numericValues. cbn [map]. rewrite Hblank. reflexivity. }
  assert (Hpone : Prescribed.presentNumbers [r] metric = [0%Q]).
  { unfold Prescribed.presentNumbers. cbn [flat_map]. rewrite Hblank. reflexivity. }
  split.
  - change (r :: post) with ([r] ++ post).
    now rewrite !numericValues_app, Hone.
  - specialize (Hm metric Hmetric). rewrite Hrows in Hm.
    rewrite numericValues_present, length_map in Hm.
    change (r :: post) with ([r] ++ post) in Hm.
    rewrite !presentNumbers_app, Hpone in Hm. cbn [app] in Hm.
    destruct (meanOf_Fin (Prescribed.presentNumbers pre metric
                          ++ 0%Q :: Prescribed.presentNumbers post metric)) as [q [Hq He]].
    { destruct (Prescribed.presentNumbers pre metric); discriminate. }
    exists q. split; [|exact He].
    rewrite Hrows. unfold JS.get. rewrite Hm, Hq.
    rewrite length_app. cbn [List.length].
    replace (0 <? _)%nat with true; [reflexivity|].
    symmetry. apply Nat.ltb_lt. lia.
Qed.

Lemma blank_cell_counts_as_zero_witness :
  DataLoader.parseCSV Sample.blankCellCsv
  = [ [("State Abbreviation", VString "AL");
       ("Adult Obesity raw value", VNumber (Fin (3 # 10)))];
      [("State Abbreviation", VString "AL"); ("Adult Obesity raw value", VString "")] ]
  /\ DataLoader.aggregateByField
       (DataLoader.standardizedRows (DataLoader.parseCSV Sample.blankCellCsv) State)
       "State Abbreviation" DataLoader.importantMetrics
     = [[("State Abbreviation", VString "AL");
         ("Adult Obesity raw value", VNumber (Fin (3 # 20)));
         ("State AbbreviationCount", VNumber (Fin (2 # 1)))]]
  /\ exists key,
      JS.get [("State Abbreviation", VString "AL");
              ("Adult Obesity raw value", VNumber (Fin (3 # 20)));
              ("State AbbreviationCount", VNumber (Fin (2 # 1)))] "State Abbreviation"
      = VString key.
Proof.
  assert (E : DataLoader.aggregateByField
                (DataLoader.standardizedRows (DataLoader.parseCSV Sample.blankCellCsv) State)
                "State Abbreviation" DataLoader.importantMetrics
              = [[("State Abbreviation", VString "AL");
                  ("Adult Obesity raw value", VNumber (Fin (3 # 20)));
                  ("State AbbreviationCount", VNumber (Fin (2 # 1)))]])
    by (vm_compute; reflexivity).
  split; [vm_compute; reflexivity|]. split; [exact E|].
  assert (H : Forall (fun m => ~ In m (Prescribed.reservedKeys "State Abbreviation"))
                DataLoader.importantMetrics)
    by (apply importantMetrics_not_reserved; now left).
  assert (Hm : In "Adult Obesity raw value" DataLoader.importantMetrics)
    by (left; reflexivity).
  assert (Hin : In [("State Abbreviation", VString "AL");
                    ("Adult Obesity raw value", VNumber (Fin (3 # 20)));
                    ("State AbbreviationCount", VNumber (Fin (2 # 1)))]
                  (DataLoader.aggregateByField
                     (DataLoader.standardizedRows (DataLoader.parseCSV Sample.blankCellCsv)
                        State)
                     "State Abbreviation" DataLoader.importantMetrics))
    by (rewrite E; left; reflexivity).
  destruct (blank_cell_counts_as_zero _ _ _ _ _ H Hm Hin) as [_ [key [Hk _]]].
  exists key. exact Hk.
Defined.

(** The records of an aggregation have pairwise different group keys. *)
Lemma aggregated_keys_distinct data field metrics :
  Forall (fun m => ~ In m (Prescribed.reservedKeys field)) metrics ->
  NoDup (map (fun res => JS.toString (JS.get res field))
           (DataLoader.aggregateByField data field metrics)).
Proof.
  intros Hres. unfold DataLoader.aggregateByField. rewrite map_map.
  rewrite (map_ext _ fst).
  - apply (Permutation_NoDup (l := map fst (DataProcessing.groupRows data field))).
    + apply Permutation_map. symmetry. apply entries_perm.
    + apply groupRows_spec.
  - intros [key rows].
    destruct (loader_aggregateGroup_spec field metrics key rows Hres) as (Hf & _).
    now rewrite Hf.
Qed.

Lemma NoDup_later {A B} (f : A -> B) (pre : list A) (x : A) (post : list A) :
  NoDup (map f (pre ++ x :: post)) -> forall y, In y post -> f y <> f x.
Proof.
  rewrite map_app. cbn [map]. intros Hn y Hy Heq.
  apply NoDup_remove_2 in Hn. apply Hn. apply in_or_app. right.
  rewrite <- Heq. now apply in_map.
Qed.

(** At state and at region level no two processed entities share an id,
    so the index of every entity is the one computed from it. *)
Lemma burden_index_aggregated lvl standardizedData entity q0 :
  lvl <> County ->
  In entity (DataLoader.aggregated standardizedData lvl) ->
  JS.truthy (DataLoader.entityId lvl entity) = true ->
  Prescribed.burden entity = Some q0 ->
  exists q,
    JS.lookup (JS.toString (DataLoader.entityId lvl entity))
      (DataLoader.healthBurdenIndex lvl (DataLoader.aggregated standardizedData lvl))
    = Some (Fin q)
    /\ (q == q0)%Q.
Proof.
  intros Hl Hin Hid Hp.
  destruct (burdenOf_prescribed entity q0 Hp) as [q [Hq Heq]].
  exists q. split; auto.
  destruct (in_split _ _ Hin) as (pre & post & Esplit).
  rewrite Esplit, healthBurdenIndex_last; auto; [now rewrite Hq|].
  intros e He _.
  assert (Hnd : NoDup (map (fun res => JS.toString (DataLoader.entityId lvl res))
                         (DataLoader.aggregated standardizedData lvl))).
  { destruct lvl; [congruence| |]; cbn [DataLoader.aggregated DataLoader.entityId];
      apply aggregated_keys_distinct; apply importantMetrics_not_reserved; auto. }
  rewrite Esplit in Hnd. exact (NoDup_later _ pre entity post Hnd e He).
Qed.

(** ** Clustering *)

(** [Math.floor(Math.random() * n)] is an index of an array of length
    [n], for a draw in the unit interval. *)
Lemma random_index (r : Q) (n : nat) :
  (0 <= r)%Q -> (r < 1)%Q -> (0 < n)%nat ->
  (0 <= Qfloor (r * inject_Z (Z.of_nat n)) < Z.of_nat n)%Z.
Proof.
  intros H0 H1 Hn.
  assert (Hn' : (0 < inject_Z (Z.of_nat n))%Q).
  { change 0%Q with (inject_Z 0). rewrite <- Zlt_Qlt. lia. }
  split.
  - rewrite <- (Qfloor_Z 0). apply Qfloor_resp_le.
    change (inject_Z 0) with 0%Q. apply Qmult_le_0_compat; auto. now apply Qlt_le_weak.
  - rewrite Zlt_Qlt.
    apply Qle_lt_trans with (r * inject_Z (Z.of_nat n))%Q; [apply Qfloor_le|].
    rewrite <- (Qmult_1_l (inject_Z (Z.of_nat n))) at 2.
    apply Qmult_lt_compat_r; auto.
Qed.

Lemma pointAt_in_range (points : DataProcessing.matrix) (idx : Z) :
  (0 <= idx < Z.of_nat (List.length points))%Z ->
  exists p, DataProcessing.pointAt points idx = Some p.
Proof.
  intros [H0 H1]. unfold DataProcessing.pointAt.
  replace (idx <? 0)%Z with false by (symmetry; apply Z.ltb_ge; lia).
  destruct (nth_error points (Z.to_nat idx)) as [p|] eqn:E; [now exists p|].
  apply nth_error_None in E. lia.
Qed.

(** With one centroid the scan can only answer 0. *)
Lemma nearest_one centroids p : DataProcessing.nearest centroids 1 p = 0%nat.
Proof.
  unfold DataProcessing.nearest. cbn [seq fold_left].
  destruct (RNum.ltBound _ _); reflexivity.
Qed.

Lemma map_nearest_one centroids (points : DataProcessing.matrix) :
  map (DataProcessing.nearest centroids 1) points = repeat 0%nat (List.length points).
Proof.
  induction points as [|p points IH]; cbn [map List.length repeat]; [reflexivity|].
  now rewrite nearest_one, IH.
Qed.

Lemma unchanged_same (l : list nat) :
  existsb (fun am => negb (fst am =? snd am)%nat) (combine l l) = false.
Proof.
  induction l as [|a l IH]; cbn [combine existsb fst snd]; [reflexivity|].
  now rewrite Nat.eqb_refl, IH.
Qed.

(** One pass of the main loop, for one centroid and all labels 0: the
    labels stay and the loop ends. *)
Lemma iterate_one iterations points centroids :
  fst (DataProcessing.iterate (S iterations) points 1 (repeat 0%nat (List.length points))
         centroids)
  = repeat 0%nat (List.length points).
Proof.
  cbn [DataProcessing.iterate]. rewrite map_nearest_one, unchanged_same. reflexivity.
Qed.

(** One centroid: one draw, and every label is 0. *)
Lemma kMeans_one rand fuel points c :
  points <> [] ->
  (0 < fuel)%nat ->
  (0 <= rand c)%Q -> (rand c < 1)%Q ->
  exists centroids,
    DataProcessing.kMeansClustering rand fuel points 1 c
    = Returned (repeat 0%nat (List.length points), centroids) (S c).
Proof.
  intros Hne Hfuel H0 H1.
  unfold DataProcessing.kMeansClustering.
  destruct points as [|p0 points]; [congruence|].
  set (pts := p0 :: points).
  replace (List.length pts =? 0)%nat with false by reflexivity.
  destruct fuel as [|fuel]; [lia|].
  cbn [DataProcessing.initCentroids List.length Nat.leb existsb negb].
  destruct (pointAt_in_range pts (Qfloor (rand c * inject_Z (Z.of_nat (List.length pts)))))
    as [p Hp].
  { apply random_index; auto. unfold pts. cbn [List.length]. lia. }
  rewrite Hp.
  replace (DataProcessing.initCentroids rand fuel pts 1 ([] ++ [p])
             ([] ++ [Qfloor (rand c * inject_Z (Z.of_nat (List.length pts)))]) (S c))
    with (Returned (A := DataProcessing.matrix) [p] (S c))
    by (destruct fuel; reflexivity).
  cbn [bind]. unfold DataProcessing.MAX_ITERATIONS.
  eexists. rewrite (surjective_pairing (DataProcessing.iterate _ _ _ _ _)).
  rewrite iterate_one. reflexivity.
Qed.

(** C8: with k = 1 and at least one point, k-means ends after one draw
    (for a draw in the unit interval) and labels every point 0; on the empty
    point list it returns the empty assignment, whatever k is, and raises
    no error. *)
Theorem kMeans_one_cluster rand fuel points c :
  points <> [] ->
  (0 < fuel)%nat ->
  (0 <= rand c)%Q -> (rand c < 1)%Q ->
  (exists centroids,
      DataProcessing.kMeansClustering rand fuel points 1 c
      = Returned (repeat 0%nat (List.length points), centroids) (S c))
  /\ (forall fuel' k c', DataProcessing.kMeansClustering rand fuel' [] k c'
                         = Returned ([], []) c').
Proof.
  intros Hne Hfuel H0 H1. split; [now apply kMeans_one|reflexivity].
Qed.

Lemma kMeans_one_cluster_witness :
  exists centroids,
    DataProcessing.kMeansClustering (fun _ => 0%Q) 1
      [[Fin 1%R; Fin 2%R]; [Fin 3%R; Fin 4%R]] 1 0
    = Returned ([0%nat; 0%nat], centroids) 1%nat.
Proof.
  assert (Hne : [[Fin 1%R; Fin 2%R]; [Fin 3%R; Fin 4%R]] <> ([] : DataProcessing.matrix))
    by discriminate.
  assert (Hfuel : (0 < 1)%nat) by lia.
  assert (H0 : (0 <= (fun _ : nat => 0%Q) 0%nat)%Q) by (cbv; discriminate).
  assert (H1 : ((fun _ : nat => 0%Q) 0%nat < 1)%Q) by reflexivity.
  exact (proj1 (kMeans_one_cluster (fun _ => 0%Q) 1 _ 0 Hne Hfuel H0 H1)).
Defined.

(** ** Sums of reals *)

Section RealSums.

Local Open Scope R_scope.









End RealSums.

(** ** Correlation *)

Section CorrelationProofs.

Local Open Scope R_scope.









End CorrelationProofs.


(** ** Standardisation *)

Section StandardizeProofs.

Local Open Scope R_scope.







End StandardizeProofs.

Section StandardizeTheorem.

Local Open Scope R_scope.










End StandardizeTheorem.



(** ** Recovery from a failing analysis *)





Section RealRun.

Local Open Scope R_scope.



End RealRun.


(** *** The imports of this repository do not throw

    Linked with [performPCA] and [performClustering] of
    lib/data-processing.ts, and with every draw in the unit interval, the
    [try] block of [processData] returns or keeps drawing; the [catch]
    block is reached only with a step that fails. *)

Lemma initCentroids_no_throw rand fuel points k centroids used c e c' :
  points <> [] ->
  (forall i, (0 <= rand i)%Q /\ (rand i < 1)%Q) ->
  DataProcessing.initCentroids rand fuel points k centroids used c <> Threw e c'.
Proof.
  intros Hne Hr. revert centroids used c.
  induction fuel as [|fuel IH]; intros centroids used c; cbn [DataProcessing.initCentroids];
    destruct (k <=? List.length centroids)%nat; try discriminate.
  destruct (negb _).
  - destruct (pointAt_in_range points
                (Qfloor (rand c * inject_Z (Z.of_nat (List.length points))))) as [p Hp].
    { destruct (Hr c) as [H0 H1]. apply random_index; auto.
      destruct points; [congruence|cbn; lia]. }
    rewrite Hp. apply IH.
  - apply IH.
Qed.

Lemma performClustering_no_throw rand fuel pcaData k c e c' :
  (forall i, (0 <= rand i)%Q /\ (rand i < 1)%Q) ->
  DataProcessing.performClustering rand fuel pcaData k c <> Threw e c'.
Proof.
  intros Hr. unfold DataProcessing.performClustering, DataProcessing.kMeansClustering.
  rewrite length_map.
  destruct pcaData as [|p pcaData]; [discriminate|].
  cbn [List.length Nat.eqb].
  destruct (DataProcessing.initCentroids _ _ _ _ _ _ _) as [cs c1|e1 c1|] eqn:E;
    cbn [bind]; try discriminate.
  exfalso. revert E. apply initCentroids_no_throw; auto. discriminate.
Qed.

Lemma performPCA_returns rand data features c :
  data <> [] ->
  exists pcaResult c1, DataProcessing.performPCA rand data features c = Returned pcaResult c1.
Proof.
  intros Hne. unfold DataProcessing.performPCA.
  destruct data as [|d data]; [congruence|].
  cbn [map DataProcessing.standardizeData].
  destruct (DataProcessing.simplePCA _ _ _ _ _) as [ps c1]. eauto.
Qed.

Lemma linked_analysis_no_throw rand fuel processed c e c' :
  (forall i, (0 <= rand i)%Q /\ (rand i < 1)%Q) ->
  DataLoader.analysis (DataProcessing.performPCA rand)
    (DataProcessing.performClustering rand fuel)
    processed (DataLoader.availableMetrics processed) c
  <> Threw e c'.
Proof.
  intros Hr. unfold DataLoader.analysis.
  destruct processed as [|d processed]; [discriminate|].
  destruct (0 <? _)%nat; [|discriminate].
  destruct (performPCA_returns rand (d :: processed)
              (firstn (Nat.min 8 (List.length (DataLoader.availableMetrics (d :: processed))))
                 (DataLoader.availableMetrics (d :: processed))) c) as (ps & c1 & E);
    [discriminate|].
  rewrite E. cbn [bind].
  destruct (0 <? _)%nat; [|discriminate].
  destruct (DataProcessing.performClustering rand fuel ps _ c1) as [cl c2|e2 c2|] eqn:Ec;
    cbn [bind]; try discriminate.
  exfalso. revert Ec. now apply performClustering_no_throw.
Qed.
